(** * Multi-provider query fallback orchestration

    A shallow embedding of the document-assistant core:
    - [src/services/backendFallbackService.ts] (class [BackendFallbackService]),
    - [src/services/chatPDFService.ts] (class [ChatPDFService] and the
      configuration helpers),
    - the unified response adapter ([adaptBackendResponse],
      [adaptChatPDFResponse], [adaptAnthropicResponse]).

    JavaScript strings are modelled as [string] (sequences of bytes), integral
    JavaScript numbers as [Z], an optional property as an [option], the
    [Map] of the source-id cache as a [gmap].  Asynchronous code is run
    sequentially (every network call is awaited), as a state-and-exception
    computation over the service state and the log of network calls. *)

From Stdlib Require Import ZArith QArith Qminmax String Ascii List Bool Lia DecimalString Floats Sorted Permutation.
From stdpp Require Import gmap strings.
Import ListNotations.

Local Open Scope Z_scope.

(** ** JavaScript primitives used by the services *)

Module Js.

(** [String.prototype.toLowerCase], on the ASCII range: the letters
    [A]..[Z] are mapped to [a]..[z] and every other byte is kept. *)
Definition lowerAscii (c : ascii) : ascii :=
  let n := nat_of_ascii c in
  if (Nat.leb 65 n && Nat.leb n 90)%bool then ascii_of_nat (n + 32) else c.

Fixpoint toLowerCase (s : string) : string :=
  match s with
  | EmptyString => EmptyString
  | String c s' => String (lowerAscii c) (toLowerCase s')
  end.

(** [String.prototype.includes]: naive search for [sub] at every position
    of [s]. *)
Fixpoint includes (s sub : string) : bool :=
  String.prefix sub s
  || match s with
     | EmptyString => false
     | String _ s' => includes s' sub
     end.

(** Truthiness of a string value: only the empty string is falsy. *)
Definition truthy (s : string) : bool :=
  match s with EmptyString => false | String _ _ => true end.

(** Truthiness of an optional string property ([undefined] is falsy). *)
Definition truthyOpt (o : option string) : bool :=
  match o with Some s => truthy s | None => false end.

(** [a || b] on optional strings. *)
Definition orElse (a b : option string) : option string :=
  if truthyOpt a then a else b.

(** [a || d] with a string default. *)
Definition orDefault (a : option string) (d : string) : string :=
  match a with
  | Some s => if truthy s then s else d
  | None => d
  end.

(** [a ?? d]: only an absent value takes the default. *)
Definition nullish (a : option string) (d : string) : string :=
  match a with Some s => s | None => d end.

(** A number inside a template literal: integers print in decimal. *)
Definition numberToString (n : Z) : string :=
  NilZero.string_of_int (Z.to_int n).

(** An optional value inside a template literal. *)
Definition templateString (o : option string) : string :=
  match o with Some s => s | None => "undefined" end.

Definition templateNumber (o : option Z) : string :=
  match o with Some n => numberToString n | None => "undefined" end.

(** [n || d] on an optional number: [undefined] and [0] are falsy. *)
Definition numberOr (o : option Z) (d : Z) : Z :=
  match o with
  | Some n => if n =? 0 then d else n
  | None => d
  end.

(** The declarative reading of "[sub] occurs in [s]". *)
Definition Contains (s sub : string) : Prop :=
  exists pre post, s = pre +:+ sub +:+ post.

End Js.

(** ** Values that can be thrown *)

(** An instance of [Error] (or of a subclass): [new Error(msg)], the
    [TypeError] of a failed [fetch], the [DOMException] of an aborted one. *)
Record JsError := mkJsError {
  isTypeError : bool;        (* error instanceof TypeError *)
  err_name : string;
  err_message : string;
}.

(** [new Error(msg)] *)
Definition newError (msg : string) : JsError :=
  {| isTypeError := false; err_name := "Error"; err_message := msg |}.

(** [new TypeError(msg)] *)
Definition newTypeError (msg : string) : JsError :=
  {| isTypeError := true; err_name := "TypeError"; err_message := msg |}.

(** [new DOMException(msg, name)] *)
Definition newDOMException (msg nm : string) : JsError :=
  {| isTypeError := false; err_name := nm; err_message := msg |}.

Inductive Provider := primary | chatpdf | mock.

(** interface [BackendError] *)
Record BackendError := mkBackendError {
  be_error : string;
  be_source : Provider;
  be_canRetry : bool;
  be_suggestFallback : bool;
}.

(** A caught value has type [unknown]: an [Error] instance, the structured
    [BackendError] object the orchestrator throws, or some other object whose
    [name] and [message] properties are strings or absent. *)
Inductive Thrown :=
| ErrorObject (e : JsError)
| BackendErrorObject (b : BackendError)
| OtherObject (nm msg : option string).

Definition thrownName (t : Thrown) : option string :=
  match t with
  | ErrorObject e => Some (err_name e)
  | BackendErrorObject _ => None
  | OtherObject nm _ => nm
  end.

Definition thrownMessage (t : Thrown) : option string :=
  match t with
  | ErrorObject e => Some (err_message e)
  | BackendErrorObject _ => None
  | OtherObject _ msg => msg
  end.

Definition instanceofError (t : Thrown) : bool :=
  match t with ErrorObject _ => true | _ => false end.

Definition instanceofTypeError (t : Thrown) : bool :=
  match t with ErrorObject e => isTypeError e | _ => false end.

Definition optStringEqb (o : option string) (s : string) : bool :=
  match o with Some x => String.eqb x s | None => false end.

(** ** Failure classification *)


(** [BackendFallbackService.shouldUseFallback] *)
Definition shouldUseFallback (error : Thrown) : bool :=
  if (optStringEqb (thrownName error) "AbortError"
      || optStringEqb (thrownName error) "TimeoutError")%bool then true
  else if
    match thrownMessage error with
    | Some m =>
        if Js.truthy m then
          let message := Js.toLowerCase m in
          (Js.includes message "500"
           || Js.includes message "502"
           || Js.includes message "503"
           || Js.includes message "504"
           || Js.includes message "network"
           || Js.includes message "timeout"
           || Js.includes message "connection")%bool
        else false
    | None => false
    end
  then true
  else if
    (instanceofTypeError error
     && match thrownMessage error with
        | Some m => Js.includes m "fetch"
        | None => false
        end)%bool
  then true
  else false.

(** ** Data model *)

(** A bounding box is a list of coordinates; the services only copy them. *)
Definition BBoxes := list (list Z).

(** An element of [BackendResponse.sources]; the adapters read it as [any],
    so every property may be absent. *)
Record RawSource := mkRawSource {
  rs_section : option string;
  rs_page : option Z;
  rs_content : option string;
  rs_exactText : option string;
  rs_relevance : option string;
  rs_context : option string;
  rs_highlightURL : option string;
  rs_bboxes : option BBoxes;
  rs_name : option string;
}.

(** interface [BackendResponse] *)
Record BackendResponse := mkBackendResponse {
  br_response : string;
  br_sources : option (list RawSource);
  br_source : Provider;
  br_timestamp : Z;
}.

(** [documentData] of interface [QueryOptions] *)
Record DocumentData := mkDocumentData {
  document_name : option string;
  document_url : option string;
  file_url : option string;
  file_size : option Z;
  mime_type : option string;
}.

(** interface [QueryOptions] *)
Record QueryOptions := mkQueryOptions {
  qo_message : string;
  qo_documentId : string;
  qo_documentData : option DocumentData;
  qo_userId : string;
  qo_limit : option Z;
  qo_timeout : option Z;
}.

(** interface [DocumentInfo] *)
Record DocumentInfo := mkDocumentInfo {
  di_id : string;
  di_name : string;
  di_url : option string;
  di_file_size : option Z;
  di_mime_type : option string;
}.

(** An element of [ChatPDFQueryResponse.references], with the two extra
    properties the degrade path reads from it. *)
Record Reference := mkReference {
  pageNumber : Z;
  ref_name : option string;
  ref_bboxes : option BBoxes;
}.

(** An element of [ChatPDFQueryResponse.sources] *)
Record ChatPDFSource := mkChatPDFSource {
  cs_page : Z;
  cs_section : option string;
  cs_exactText : string;
  cs_relevance : string;
  cs_context : string;
  cs_highlightURL : option string;
  cs_bboxes : option BBoxes;
  cs_name : option string;
}.

(** interface [ChatPDFQueryResponse] *)
Record ChatPDFQueryResponse := mkChatPDFQueryResponse {
  cq_content : string;
  cq_references : option (list Reference);
  cq_sources : option (list ChatPDFSource);
}.

(** interface [ChatPDFError]: the JSON body of a failed third-party call *)
Record ChatPDFError := mkChatPDFError {
  ce_error : option string;
  ce_message : option string;
}.

(** ** Configuration ([import.meta.env]) *)

Record Env := mkEnv {
  VITE_API_BASE_URL : option string;
  VITE_CHATPDF_ACCESS_KEY : option string;
  VITE_USE_CHATPDF : option string;
}.

(** ** The network *)

(** The JSON body sent to [POST {base}/query] *)
Record PrimaryPayload := mkPrimaryPayload {
  pp_message : string;
  pp_user_id : string;
  pp_limit : Z;
  pp_document_ids : option (list string);
}.

Record PrimaryRequest := mkPrimaryRequest {
  pr_url : string;
  pr_authorization : string;
  pr_body : PrimaryPayload;
  pr_timeout : Z;
}.

(** [POST {base}/sources/add-url] *)
Record AddUrlRequest := mkAddUrlRequest {
  au_apiKey : string;
  au_url : string;
}.

(** [POST {base}/chats/message] *)
Record ChatMessageRequest := mkChatMessageRequest {
  cm_apiKey : string;
  cm_sourceId : string;
  cm_content : string;
  cm_referenceSources : bool;
  cm_temperature : Q;
  cm_stream : bool;
}.

(** The call to the citation extraction service. *)
Record ExtractRequest := mkExtractRequest {
  ex_question : string;
  ex_answer : string;
  ex_documentInfo : DocumentInfo;
  ex_references : option (list Reference);
}.

(** One entry of the log of calls that left the process. *)
Inductive Call :=
| CallPrimaryQuery (r : PrimaryRequest)
| CallAddUrl (r : AddUrlRequest)
| CallChatMessage (r : ChatMessageRequest)
| CallExtractSources (r : ExtractRequest).

(** [await response.json()] *)
Inductive JsonResult (B : Type) :=
| JsonValue (b : B)
| JsonRejected (e : JsError).
Arguments JsonValue {B} b.
Arguments JsonRejected {B} e.

(** [await fetch(...)] followed by the reading of the body: the promise is
    rejected (by the transport, or by the abort signal of the timer), or a
    response arrives, with [response.ok] or not. *)
Inductive FetchResult (B E : Type) :=
| FetchRejected (e : JsError)
| FetchOk (body : JsonResult B)
| FetchNotOk (status : Z) (statusText : string) (body : JsonResult E).
Arguments FetchRejected {B E} e.
Arguments FetchOk {B E} body.
Arguments FetchNotOk {B E} status statusText body.

(** The JSON body of the primary backend's answer. *)
Record PrimaryBody := mkPrimaryBody {
  pb_response : option string;
  pb_sources : option (list RawSource);
}.

(** interface [ChatPDFUploadResponse] *)
Record ChatPDFUploadResponse := mkChatPDFUploadResponse {
  up_sourceId : string;
  up_status : string;
}.

(** The JSON body of [chats/message]. *)
Record ChatBody := mkChatBody {
  cb_content : string;
  cb_references : option (list Reference);
}.

(** The result of a call that returns or throws. *)
Inductive Outcome (A : Type) :=
| Returned (a : A)
| Threw (t : Thrown).
Arguments Returned {A} a.
Arguments Threw {A} t.

(** What the outside world answers.  Every answer may depend on the calls
    made so far, so that the same request can succeed once and fail later.
    [extractSources] is the citation extraction service, whose code is not
    part of the modelled files: it returns a list of sources or throws. *)
Record Network := mkNetwork {
  fetchPrimaryQuery : list Call -> PrimaryRequest -> FetchResult PrimaryBody unit;
  fetchAddUrl : list Call -> AddUrlRequest -> FetchResult ChatPDFUploadResponse ChatPDFError;
  fetchChatMessage : list Call -> ChatMessageRequest -> FetchResult ChatBody ChatPDFError;
  extractSources : list Call -> ExtractRequest -> Outcome (list ChatPDFSource);
  dateNow : list Call -> Z;
}.

(** ** Program state *)

(** The fields of a [ChatPDFService] instance. *)
Record ChatPDFService := mkChatPDFService {
  apiKey : string;
  sourceCache : gmap string string;
}.

(** The module-level singleton of [chatPDFService.ts] and the log of calls. *)
Record State := mkState {
  chatPDFService : option ChatPDFService;
  calls : list Call;
}.

(** ** Computations that read and write the state and may throw *)

Definition M (A : Type) : Type := State -> Outcome A * State.

Definition ret {A} (a : A) : M A := fun st => (Returned a, st).

Definition throw {A} (t : Thrown) : M A := fun st => (Threw t, st).

Definition bind {A B} (c : M A) (k : A -> M B) : M B :=
  fun st =>
    match c st with
    | (Returned a, st') => k a st'
    | (Threw t, st') => (Threw t, st')
    end.

(** [try { c } catch (e) { handler e }]: the state reached when [c] threw is
    kept. *)
Definition tryCatch {A} (c : M A) (handler : Thrown -> M A) : M A :=
  fun st =>
    match c st with
    | (Returned a, st') => (Returned a, st')
    | (Threw t, st') => handler t st'
    end.

Definition getState : M State := fun st => (Returned st, st).

Definition putService (svc : option ChatPDFService) : M unit :=
  fun st => (Returned tt, {| chatPDFService := svc; calls := calls st |}).

(** Performs a call: asks the world for the answer and logs the call. *)
Definition perform {A} (answer : list Call -> A) (c : Call) : M A :=
  fun st =>
    (Returned (answer (calls st)),
     {| chatPDFService := chatPDFService st; calls := calls st ++ [c] |}).

Declare Scope js_scope.
Delimit Scope js_scope with js.
Notation "'let*' x := c 'in' k" := (bind c (fun x => k))
  (at level 10, x name, c at level 100, k at level 200) : js_scope.
Local Open Scope js_scope.

(** ** The services *)

(** [options] of [ChatPDFService.queryDocument] *)
Record QueryDocumentOptions := mkQueryDocumentOptions {
  qd_referenceSources : option bool;
  qd_temperature : option Q;
  qd_stream : option bool;
  qd_extractSources : option bool;
  qd_documentInfo : option DocumentInfo;
}.

(** What [queryPrimaryBackend] resolves to. *)
Record PrimaryResult := mkPrimaryResult {
  res_response : string;
  res_sources : option (list RawSource);
}.

(** The citation instruction appended to every primary-backend prompt. *)
Definition primaryInstruction : string :=
  ". Please be thorough and provide references to all relevant sections of the document, including page numbers and section titles where this information appears.".

(** The formatting contract appended to every third-party prompt. *)
Definition chatPDFInstruction : string :=
  ". Please be thorough and reference all relevant pages and sections where this information appears.

Format your response using clear markdown structure:
- Use **bold** for important terms and section titles
- Use numbered lists (1. 2. 3.) or bullet points (•) for criteria and requirements
- Add proper spacing between different sections
- Use headings (## or ###) for major sections when appropriate".

(** [Array.isArray(b) && b.length > 0 ? b : undefined] *)
Definition nonEmptyBBoxes (b : option BBoxes) : option BBoxes :=
  match b with
  | Some (x :: l) => Some (x :: l)
  | _ => None
  end.

(** The coarse citation [queryDocument] synthesizes from a page reference
    when the extraction service failed. *)
Definition degradedSource (documentInfo : option DocumentInfo) (ref : Reference)
  : ChatPDFSource :=
  {| cs_page := pageNumber ref;
     cs_section := Some ("Page " +:+ Js.numberToString (pageNumber ref));
     cs_exactText := "Content from page " +:+ Js.numberToString (pageNumber ref);
     cs_relevance := "medium";
     cs_context := "Basic page reference from ChatPDF";
     cs_highlightURL := di ← documentInfo; di_url di;
     cs_name := Js.orElse (ref_name ref) (di_name <$> documentInfo);
     cs_bboxes := ref_bboxes ref |}.

(** In [queryWithChatPDF]: an enhanced source in [BackendResponse] form. *)
Definition enhancedSource (source : ChatPDFSource) : RawSource :=
  {| rs_section :=
       Some (Js.orDefault (cs_section source)
               ("Page " +:+ Js.numberToString (cs_page source)));
     rs_page := Some (cs_page source);
     rs_content := Some (cs_exactText source);
     rs_exactText := Some (cs_exactText source);
     rs_context := Some (cs_context source);
     rs_relevance := Some (cs_relevance source);
     rs_highlightURL := cs_highlightURL source;
     rs_bboxes := nonEmptyBBoxes (cs_bboxes source);
     rs_name := Some (Js.nullish (cs_name source) "Unknown") |}.

(** In [queryWithChatPDF]: a basic page reference in [BackendResponse] form. *)
Definition basicReference (documentInfo : DocumentInfo) (ref : Reference)
  : RawSource :=
  let highlightURL :=
    match di_url documentInfo with
    | Some url =>
        if Js.truthy url
        then Some (url +:+ "#page=" +:+ Js.numberToString (pageNumber ref))
        else None
    | None => None
    end in
  {| rs_section := Some ("Page " +:+ Js.numberToString (pageNumber ref));
     rs_page := Some (pageNumber ref);
     rs_content := Some ("Content from page " +:+ Js.numberToString (pageNumber ref));
     rs_exactText := None;
     rs_context := None;
     rs_relevance := None;
     rs_highlightURL := highlightURL;
     rs_bboxes := None;
     rs_name := None |}.

(** In [queryWithChatPDF]: the expression bound to [sources],
    [sources?.map(..) || references?.map(..) || []] (an array, even an empty
    one, is truthy). *)
Definition transformSources (documentInfo : DocumentInfo)
  (chatPDFResponse : ChatPDFQueryResponse) : list RawSource :=
  match cq_sources chatPDFResponse with
  | Some sources => map enhancedSource sources
  | None =>
      match cq_references chatPDFResponse with
      | Some references => map (basicReference documentInfo) references
      | None => []
      end
  end.

(** The request [queryDocument] sends to [chats/message]. *)
Definition chatMessageRequest (key sourceId question : string)
  (options : option QueryDocumentOptions) : ChatMessageRequest :=
  {| cm_apiKey := key;
     cm_sourceId := sourceId;
     cm_content := question +:+ chatPDFInstruction;
     cm_referenceSources := default true (options ≫= qd_referenceSources);
     cm_temperature := default (3 # 10)%Q (options ≫= qd_temperature);
     cm_stream := default false (options ≫= qd_stream) |}.

(** [ChatPDFService.isAvailable], as a function of the [apiKey] field. *)
Definition isAvailable (key : option string) : bool :=
  match key with
  | Some k => (Js.truthy k && (0 <? Z.of_nat (String.length k)))%bool
  | None => false
  end.

Section Services.

Variable env : Env.
Variable net : Network.

(** [Date.now()] *)
Definition DateNow : M Z := fun st => (Returned (dateNow net (calls st)), st).

(** *** [chatPDFService.ts] *)

(** [getChatPDFService]: the singleton is created on first use, when an API
    key is configured. *)
Definition getChatPDFService : M (option ChatPDFService) :=
  match VITE_CHATPDF_ACCESS_KEY env with
  | Some apiKey =>
      if negb (Js.truthy apiKey) then ret None
      else
        let* st := getState in
        match chatPDFService st with
        | Some svc => ret (Some svc)
        | None =>
            let svc := {| apiKey := apiKey; sourceCache := ∅ |} in
            let* _ := putService (Some svc) in
            ret (Some svc)
        end
  | None => ret None
  end.

(** [isChatPDFEnabled] *)
Definition isChatPDFEnabled : bool :=
  let useChatPDF := optStringEqb (VITE_USE_CHATPDF env) "true" in
  let hasApiKey := Js.truthyOpt (VITE_CHATPDF_ACCESS_KEY env) in
  (useChatPDF && hasApiKey)%bool.

(** [shouldUseChatPDFAsPrimary] *)
Definition shouldUseChatPDFAsPrimary : bool :=
  optStringEqb (VITE_USE_CHATPDF env) "true".

(** The receiver of a [ChatPDFService] method.  The only instance is the
    singleton; a method call on [null] throws a [TypeError]. *)
Definition this : M ChatPDFService :=
  let* st := getState in
  match chatPDFService st with
  | Some svc => ret svc
  | None => throw (ErrorObject (newTypeError "Cannot read properties of null"))
  end.

(** [this.sourceCache.set(k, v)] *)
Definition sourceCacheSet (k v : string) : M unit :=
  let* self := this in
  putService (Some {| apiKey := apiKey self;
                      sourceCache := <[k := v]> (sourceCache self) |}).

(** [ChatPDFService.clearCache] *)
Definition clearCache : M unit :=
  let* self := this in
  putService (Some {| apiKey := apiKey self; sourceCache := ∅ |}).

(** [ChatPDFService.uploadDocumentByUrl] *)
Definition uploadDocumentByUrl (documentUrl : string) : M string :=
  tryCatch
    (let* self := this in
     let request := {| au_apiKey := apiKey self; au_url := documentUrl |} in
     let* response := perform (fun h => fetchAddUrl net h request) (CallAddUrl request) in
     match response with
     | FetchRejected e => throw (ErrorObject e)
     | FetchNotOk _ _ (JsonRejected e) => throw (ErrorObject e)
     | FetchNotOk _ _ (JsonValue error) =>
         throw (ErrorObject (newError
           ("ChatPDF Upload Error: "
            +:+ Js.templateString (Js.orElse (ce_message error) (ce_error error)))))
     | FetchOk (JsonRejected e) => throw (ErrorObject e)
     | FetchOk (JsonValue data) => ret (up_sourceId data)
     end)
    (fun error => throw error).

(** [ChatPDFService.getSourceId] *)
Definition getSourceId (document : DocumentInfo) : M string :=
  let* self := this in
  match sourceCache self !! di_id document with
  | Some cachedSourceId => ret cachedSourceId
  | None =>
      let* sourceId :=
        match di_url document with
        | Some url =>
            if Js.truthy url then uploadDocumentByUrl url
            else throw (ErrorObject (newError "Document URL is required for ChatPDF upload"))
        | None => throw (ErrorObject (newError "Document URL is required for ChatPDF upload"))
        end in
      let* _ := sourceCacheSet (di_id document) sourceId in
      ret sourceId
  end.

(** The call to [getSourceExtractionService().extractSources(..)]. *)
Definition callExtractSources (request : ExtractRequest) : M (list ChatPDFSource) :=
  let* result := perform (fun h => extractSources net h request) (CallExtractSources request) in
  match result with
  | Returned sources => ret sources
  | Threw t => throw t
  end.

(** [ChatPDFService.queryDocument] *)
Definition queryDocument (sourceId question : string)
  (options : option QueryDocumentOptions) : M ChatPDFQueryResponse :=
  tryCatch
    (let* self := this in
     let request := chatMessageRequest (apiKey self) sourceId question options in
     let* response :=
       perform (fun h => fetchChatMessage net h request) (CallChatMessage request) in
     match response with
     | FetchRejected e => throw (ErrorObject e)
     | FetchNotOk _ _ (JsonRejected e) => throw (ErrorObject e)
     | FetchNotOk _ _ (JsonValue error) =>
         throw (ErrorObject (newError
           ("ChatPDF Query Error: "
            +:+ Js.templateString (Js.orElse (ce_message error) (ce_error error)))))
     | FetchOk (JsonRejected e) => throw (ErrorObject e)
     | FetchOk (JsonValue data) =>
         let baseResponse :=
           {| cq_content := cb_content data;
              cq_references := Some (default [] (cb_references data));
              cq_sources := None |} in
         match options ≫= qd_documentInfo with
         | Some documentInfo =>
             if default false (options ≫= qd_extractSources) then
               tryCatch
                 (let* sources :=
                    callExtractSources
                      {| ex_question := question;
                         ex_answer := cb_content data;
                         ex_documentInfo := documentInfo;
                         ex_references := cb_references data |} in
                  ret {| cq_content := cq_content baseResponse;
                         cq_references := cq_references baseResponse;
                         cq_sources := Some sources |})
                 (fun extractError =>
                    ret {| cq_content := cq_content baseResponse;
                           cq_references := cq_references baseResponse;
                           cq_sources :=
                             Some (map (degradedSource (options ≫= qd_documentInfo))
                                     (default [] (cb_references data))) |})
             else ret baseResponse
         | None => ret baseResponse
         end
     end)
    (fun error => throw error).

(** *** [backendFallbackService.ts] *)

(** The constructor's fields. *)
Definition primaryBackendUrl : string := Js.orDefault (VITE_API_BASE_URL env) "".
Definition requestTimeout : Z := 120000.
Definition retryAttempts : Z := 2.

(** [BackendFallbackService.queryPrimaryBackend] *)
Definition queryPrimaryBackend (message documentId userId : string)
  (limit timeout : Z) : M PrimaryResult :=
  tryCatch
    (let requestPayload :=
       {| pp_message := message +:+ primaryInstruction;
          pp_user_id := userId;
          pp_limit := limit;
          pp_document_ids := if Js.truthy documentId then Some [documentId] else None |} in
     let request :=
       {| pr_url := primaryBackendUrl +:+ "/query";
          pr_authorization := "Bearer " +:+ userId;
          pr_body := requestPayload;
          pr_timeout := timeout |} in
     let* response :=
       perform (fun h => fetchPrimaryQuery net h request) (CallPrimaryQuery request) in
     match response with
     | FetchRejected e => throw (ErrorObject e)
     | FetchNotOk status statusText _ =>
         throw (ErrorObject (newError
           ("Primary backend error: " +:+ Js.numberToString status
            +:+ " " +:+ statusText)))
     | FetchOk (JsonRejected e) => throw (ErrorObject e)
     | FetchOk (JsonValue responseJson) =>
         ret {| res_response := Js.orDefault (pb_response responseJson) "No response received";
                res_sources := Some (default [] (pb_sources responseJson)) |}
     end)
    (fun error => throw error).

(** [BackendFallbackService.queryWithChatPDF] *)
Definition queryWithChatPDF (message documentId : string)
  (documentData : option DocumentData) : M BackendResponse :=
  let* chatPDFService := getChatPDFService in
  match chatPDFService with
  | None => throw (ErrorObject (newError "ChatPDF service is not available"))
  | Some _ =>
      tryCatch
        (let documentInfo :=
           {| di_id := documentId;
              di_name := Js.orDefault (documentData ≫= document_name)
                           ("Document " +:+ documentId);
              di_url := Js.orElse (documentData ≫= document_url)
                          (documentData ≫= file_url);
              di_file_size := documentData ≫= file_size;
              di_mime_type := documentData ≫= mime_type |} in
         if negb (Js.truthyOpt (di_url documentInfo)) then
           throw (ErrorObject (newError "Document URL is required for ChatPDF processing"))
         else
           let* sourceId := getSourceId documentInfo in
           let* chatPDFResponse :=
             queryDocument sourceId message
               (Some {| qd_referenceSources := Some true;
                        qd_temperature := Some (3 # 10)%Q;
                        qd_stream := None;
                        qd_extractSources := Some true;
                        qd_documentInfo := Some documentInfo |}) in
           let sources := transformSources documentInfo chatPDFResponse in
           let* now := DateNow in
           ret {| br_response := cq_content chatPDFResponse;
                  br_sources := Some sources;
                  br_source := chatpdf;
                  br_timestamp := now |})
        (fun error => throw error)
  end.

(** [BackendFallbackService.createBackendError] *)
Definition createBackendError (error : Thrown) (source : Provider) : M BackendError :=
  let errorMessage :=
    if instanceofError error then Js.templateString (thrownMessage error)
    else "Unknown error" in
  let* offer :=
    match source with
    | primary =>
        let* chatPDFService := getChatPDFService in
        ret (bool_decide (is_Some chatPDFService))
    | _ => ret false
    end in
  ret {| be_error := errorMessage;
         be_source := source;
         be_canRetry := shouldUseFallback error;
         be_suggestFallback := offer |}.

(** [BackendFallbackService.createFallbackError] *)
Definition createFallbackError (primaryError fallbackError : Thrown) : BackendError :=
  let primaryMsg :=
    if instanceofError primaryError then Js.templateString (thrownMessage primaryError)
    else "Primary backend failed" in
  let fallbackMsg :=
    if instanceofError fallbackError then Js.templateString (thrownMessage fallbackError)
    else "ChatPDF fallback failed" in
  {| be_error := "Both services failed. Primary: " +:+ primaryMsg
                 +:+ ". Fallback: " +:+ fallbackMsg;
     be_source := primary;
     be_canRetry := false;
     be_suggestFallback := false |}.

(** [BackendFallbackService.query] *)
Definition query (options : QueryOptions) : M BackendResponse :=
  let message := qo_message options in
  let documentId := qo_documentId options in
  let documentData := qo_documentData options in
  let userId := qo_userId options in
  let limit := default 5 (qo_limit options) in
  let timeout := qo_timeout options in
  if shouldUseChatPDFAsPrimary then queryWithChatPDF message documentId documentData
  else
    tryCatch
      (let* response :=
         queryPrimaryBackend message documentId userId limit
           (Js.numberOr timeout requestTimeout) in
       let* now := DateNow in
       ret {| br_response := res_response response;
              br_sources := res_sources response;
              br_source := primary;
              br_timestamp := now |})
      (fun primaryError =>
         let* chatPDFService := getChatPDFService in
         if (bool_decide (is_Some chatPDFService) && shouldUseFallback primaryError)%bool
         then
           tryCatch
             (queryWithChatPDF message documentId documentData)
             (fun fallbackError =>
                throw (BackendErrorObject (createFallbackError primaryError fallbackError)))
         else
           let* backendError := createBackendError primaryError primary in
           throw (BackendErrorObject backendError)).

End Services.

(** ** The unified response adapter *)

(** interface [UnifiedSource] *)
Record UnifiedSource := mkUnifiedSource {
  us_page : Z;
  us_section : string;
  us_exactText : string;
  us_relevance : string;
  us_context : string;
  us_highlightURL : string;
  us_bboxes : option BBoxes;
  us_name : option string;
}.

(** interface [UnifiedAIResponse] *)
Record UnifiedAIResponse := mkUnifiedAIResponse {
  ur_response : string;
  ur_sources : list UnifiedSource;
  ur_source : string;
  ur_timestamp : Z;
  ur_cost : option Q;
  ur_model : option string;
}.

(** What the adapters read of their [any] argument. *)
Record AnyResponse := mkAnyResponse {
  any_response : string;
  any_sources : option (list RawSource);
  any_source : option string;
  any_timestamp : option Z;
  any_cost : option Q;
  any_model : option string;
}.

Definition providerTag (p : Provider) : string :=
  match p with
  | primary => "primary"
  | chatpdf => "chatpdf"
  | mock => "mock"
  end.

(** A [BackendResponse] seen as the adapters' argument. *)
Definition ofBackendResponse (r : BackendResponse) : AnyResponse :=
  {| any_response := br_response r;
     any_sources := br_sources r;
     any_source := Some (providerTag (br_source r));
     any_timestamp := Some (br_timestamp r);
     any_cost := None;
     any_model := None |}.

(** The mapping applied to each source by [adaptBackendResponse]. *)
Definition adaptBackendSource (source : RawSource) : UnifiedSource :=
  {| us_page := Js.numberOr (rs_page source) 0;
     us_section := Js.orDefault (rs_section source) "Document Section";
     us_exactText :=
       Js.orDefault (Js.orElse (rs_exactText source) (rs_content source)) "";
     us_relevance := Js.orDefault (rs_relevance source) "medium";
     us_context := Js.orDefault (rs_context source) "Context from backend analysis";
     us_highlightURL := Js.orDefault (rs_highlightURL source) "";
     us_bboxes := nonEmptyBBoxes (rs_bboxes source);
     us_name := Some (Js.nullish (rs_name source) "Unknown") |}.

(** [adaptBackendResponse]; [now] is the value of [Date.now()]. *)
Definition adaptBackendResponse (now : Z) (backendResponse : AnyResponse)
  : UnifiedAIResponse :=
  {| ur_response := any_response backendResponse;
     ur_sources := map adaptBackendSource (default [] (any_sources backendResponse));
     ur_source := Js.orDefault (any_source backendResponse) "backend";
     ur_timestamp := Js.numberOr (any_timestamp backendResponse) now;
     ur_cost := any_cost backendResponse;
     ur_model := any_model backendResponse |}.

(** The mapping applied to each source by [adaptChatPDFResponse]. *)
Definition adaptChatPDFSource (documentUrl : string) (source : RawSource)
  : UnifiedSource :=
  {| us_page := Js.numberOr (rs_page source) 0;
     us_section := Js.orDefault (rs_section source) "Document Section";
     us_exactText :=
       Js.orDefault (Js.orElse (rs_exactText source) (rs_content source)) "";
     us_relevance := Js.orDefault (rs_relevance source) "high";
     us_context := Js.orDefault (rs_context source) "Context from ChatPDF analysis";
     us_highlightURL :=
       Js.orDefault (rs_highlightURL source)
         (documentUrl +:+ "#page=" +:+ Js.templateNumber (rs_page source));
     us_bboxes := None;
     us_name := None |}.

(** [adaptChatPDFResponse] *)
Definition adaptChatPDFResponse (now : Z) (chatPDFResponse : AnyResponse)
  (documentUrl : string) : UnifiedAIResponse :=
  {| ur_response := any_response chatPDFResponse;
     ur_sources :=
       map (adaptChatPDFSource documentUrl) (default [] (any_sources chatPDFResponse));
     ur_source := "chatpdf";
     ur_timestamp := Js.numberOr (any_timestamp chatPDFResponse) now;
     ur_cost := any_cost chatPDFResponse;
     ur_model := Some "ChatPDF + OpenAI GPT-4o-mini" |}.

(** A citation of the LLM citation service: [{content, source: {chunk_index}}]. *)
Record ClaudeCitation := mkClaudeCitation {
  cc_content : option string;
  cc_chunk_index : option Z;      (* citation.source?.chunk_index *)
}.




Definition adaptAnthropicCitation (documentUrl : string) (citation : ClaudeCitation)
  : UnifiedSource :=
  {| us_page := Js.numberOr (cc_chunk_index citation) 0;
     us_section := "Claude Citation";
     us_exactText := Js.orDefault (cc_content citation) "";
     us_relevance := "high";
     us_context := "Citation from Claude analysis";
     us_highlightURL :=
       documentUrl +:+ "#page=" +:+ Js.templateNumber (cc_chunk_index citation);
     us_bboxes := None;
     us_name := None |}.



(** ** Vocabulary of the specification *)


(** Calls that reach the third-party provider (or its extraction assist). *)
Definition isThirdPartyCall (c : Call) : bool :=
  match c with
  | CallPrimaryQuery _ => false
  | CallAddUrl _ | CallChatMessage _ | CallExtractSources _ => true
  end.

Definition thirdPartyCalls (l : list Call) : list Call :=
  List.filter isThirdPartyCall l.

(** Upload network calls. *)
Definition isUploadCall (c : Call) : bool :=
  match c with CallAddUrl _ => true | _ => false end.

Definition uploadCount (l : list Call) : nat :=
  length (List.filter isUploadCall l).

(** The source id cached for a document, if any. *)
Definition cachedSourceId (st : State) (documentId : string) : option string :=
  svc ← chatPDFService st; sourceCache svc !! documentId.

(** The page, section and text of a coarse citation for page [n]. *)
Definition CoarseCitation (n : Z) (c : ChatPDFSource) : Prop :=
  cs_page c = n
  /\ cs_section c = Some ("Page " +:+ Js.numberToString n)
  /\ cs_exactText c = "Content from page " +:+ Js.numberToString n
  /\ cs_relevance c = "medium".


(** ** Example configurations, networks and requests *)

Module Example.

(** The third-party provider is configured as fallback only. *)
Definition env : Env :=
  {| VITE_API_BASE_URL := Some "https://api.example.org";
     VITE_CHATPDF_ACCESS_KEY := Some "sec_key";
     VITE_USE_CHATPDF := None |}.

(** The third-party provider is flagged as primary but has no API key. *)
Definition envForcedNoKey : Env :=
  {| VITE_API_BASE_URL := Some "https://api.example.org";
     VITE_CHATPDF_ACCESS_KEY := None;
     VITE_USE_CHATPDF := Some "true" |}.

Definition eligibility : RawSource :=
  {| rs_section := Some "Eligibility"; rs_page := Some 3; rs_content := None;
     rs_exactText := None; rs_relevance := None; rs_context := None;
     rs_highlightURL := None; rs_bboxes := None; rs_name := None |}.

(** A raw source with a negative page and neither text nor content. *)
Definition negativePage : RawSource :=
  {| rs_section := Some "Eligibility"; rs_page := Some (-1); rs_content := None;
     rs_exactText := None; rs_relevance := None; rs_context := None;
     rs_highlightURL := None; rs_bboxes := None; rs_name := None |}.

Definition page5 : Reference :=
  {| pageNumber := 5; ref_name := None; ref_bboxes := None |}.

(** Every provider answers; the extraction service fails. *)
Definition netUp : Network :=
  {| fetchPrimaryQuery := fun _ _ =>
       FetchOk (JsonValue {| pb_response := Some "Adults aged 18 to 75.";
                             pb_sources := Some [eligibility] |});
     fetchAddUrl := fun _ _ =>
       FetchOk (JsonValue {| up_sourceId := "src_1"; up_status := "ok" |});
     fetchChatMessage := fun _ _ =>
       FetchOk (JsonValue {| cb_content := "See page 5.";
                             cb_references := Some [page5] |});
     extractSources := fun _ _ =>
       Threw (ErrorObject (newError "Source extraction failed"));
     dateNow := fun _ => 1700000000000 |}.

(** The primary backend answers 503 and the third-party upload is
    unreachable. *)
Definition netDown : Network :=
  {| fetchPrimaryQuery := fun _ _ =>
       FetchNotOk 503 "Service Unavailable" (JsonValue tt);
     fetchAddUrl := fun _ _ =>
       FetchRejected (newTypeError "NetworkError when attempting to fetch resource.");
     fetchChatMessage := fun _ _ =>
       FetchRejected (newTypeError "NetworkError when attempting to fetch resource.");
     extractSources := fun _ _ =>
       Threw (ErrorObject (newError "Source extraction failed"));
     dateNow := fun _ => 1700000000000 |}.

Definition documentData : DocumentData :=
  {| document_name := Some "Protocol";
     document_url := Some "https://files.example.org/protocol.pdf";
     file_url := None; file_size := None; mime_type := None |}.

Definition options : QueryOptions :=
  {| qo_message := "inclusion criteria";
     qo_documentId := "doc1";
     qo_documentData := Some documentData;
     qo_userId := "tok";
     qo_limit := None;
     qo_timeout := None |}.

Definition document : DocumentInfo :=
  {| di_id := "doc1"; di_name := "Protocol";
     di_url := Some "https://files.example.org/protocol.pdf";
     di_file_size := None; di_mime_type := None |}.

Definition documentNoUrl : DocumentInfo :=
  {| di_id := "doc1"; di_name := "Protocol"; di_url := None;
     di_file_size := None; di_mime_type := None |}.

(** Nothing has run yet. *)
Definition initial : State := {| chatPDFService := None; calls := [] |}.

(** The singleton exists, with an empty cache. *)
Definition started : State :=
  {| chatPDFService := Some {| apiKey := "sec_key"; sourceCache := ∅ |};
     calls := [] |}.

End Example.

(** ** The sources panel ([CleanPDFSourcesPanelRAG]) *)

Module Panel.

(** What the panel reads of a source.  [page] is a number, as interface
    [PDFSource] declares it. *)
Record Source := mkSource {
  ps_page : Z;
  ps_name : option string;
  ps_section : option string;
  ps_exactText : option string;
  ps_content : option string;
  ps_relevance : option string;
  ps_context : option string;
  ps_highlightURL : option string;
  ps_bboxes : option BBoxes;
}.

(** [Array.prototype.findIndex]: the index of the first element that
    satisfies [p], [-1] when there is none. *)
Fixpoint findIndexFrom {A} (p : A -> bool) (l : list A) (index : Z) : Z :=
  match l with
  | [] => -1
  | x :: l' => if p x then index else findIndexFrom p l' (index + 1)
  end.

Definition findIndex {A} (p : A -> bool) (l : list A) : Z := findIndexFrom p l 0.

(** [Array.prototype.filter] with the two-argument callback
    [(element, index) => ..]. *)
Fixpoint filterWithIndex {A} (f : A -> Z -> bool) (l : list A) (index : Z) : list A :=
  match l with
  | [] => []
  | x :: l' =>
      if f x index then x :: filterWithIndex f l' (index + 1)
      else filterWithIndex f l' (index + 1)
  end.

(** [a === b] on optional strings. *)
Definition strictEq (a b : option string) : bool :=
  match a, b with
  | Some x, Some y => String.eqb x y
  | None, None => true
  | _, _ => false
  end.

(** [s.page === source.page && s.exactText === source.exactText] *)
Definition sameKey (s source : Source) : bool :=
  ((ps_page s =? ps_page source)
   && strictEq (ps_exactText s) (ps_exactText source))%bool.

(** [uniqueSources]: the sources whose index is the index of the first
    source with the same page and text. *)
Definition uniqueSources (sources : list Source) : list Source :=
  filterWithIndex
    (fun source index => index =? findIndex (fun s => sameKey s source) sources)
    sources 0.








(** The [source] prop handed to each [CleanPDFSourceLinkRAG]. *)
Definition linkSource (source : Source) : Source :=
  {| ps_page := ps_page source;
     ps_name := Some (Js.orDefault (ps_name source) "");
     ps_section := ps_section source;
     ps_exactText := Js.orElse (ps_exactText source) (ps_content source);
     ps_content := None;
     ps_relevance := ps_relevance source;
     ps_context := ps_context source;
     ps_highlightURL := ps_highlightURL source;
     ps_bboxes := ps_bboxes source |}.



(** The page and text that identify a source. *)
Definition key (s : Source) : Z * option string := (ps_page s, ps_exactText s).

(** Keeping, from left to right, the sources whose key has not been seen. *)
Fixpoint firstOccurrences (seen rest : list Source) : list Source :=
  match rest with
  | [] => []
  | x :: r =>
      if existsb (fun s => sameKey s x) seen then firstOccurrences (seen ++ [x]) r
      else x :: firstOccurrences (seen ++ [x]) r
  end.



(** Four sources as a backend may list them: a duplicate of the first, and
    two that the comparator cannot tell apart. *)
Definition exampleSource (pg : Z) (text : string) (rel : option string) : Source :=
  {| ps_page := pg; ps_name := None; ps_section := None;
     ps_exactText := Some text; ps_content := None; ps_relevance := rel;
     ps_context := None; ps_highlightURL := None; ps_bboxes := None |}.

Definition exampleSources : list Source :=
  [ exampleSource 7 "Age 18 to 75" (Some "medium");
    exampleSource 3 "Signed consent" (Some "high");
    exampleSource 7 "Age 18 to 75" (Some "high");
    exampleSource 3 "HbA1c 7.0%-10.0%" (Some "high");
    exampleSource 2 "Stable metformin dose" None ].

End Panel.

(** ** The PDF reader ([PDFReader]) *)

Module Reader.

(** The state hooks of the component. *)
Record State := mkState {
  numPages : Z;
  pageNumber : Z;
  scale : Q;
  loading : bool;
  error : option string;
}.

(** The initial values given to [useState]. *)
Definition initial : State :=
  {| numPages := 0; pageNumber := 1; scale := 1; loading := true; error := None |}.

Definition setPageNumber (p : Z) (st : State) : State :=
  {| numPages := numPages st; pageNumber := p; scale := scale st;
     loading := loading st; error := error st |}.

(** [highlightedPage && highlightedPage <= numPages], for the optional prop
    [highlightedPage] ([undefined] and [0] are falsy). *)
Definition highlightApplies (highlightedPage : option Z) (pages : Z) : bool :=
  match highlightedPage with
  | Some p => (negb (p =? 0) && (p <=? pages))%bool
  | None => false
  end.

(** [onDocumentLoadSuccess] *)
Definition onDocumentLoadSuccess (pages : Z) (highlightedPage : option Z)
  (st : State) : State :=
  let st' := {| numPages := pages; pageNumber := pageNumber st; scale := scale st;
                loading := false; error := None |} in
  if highlightApplies highlightedPage pages
  then setPageNumber (default 0 highlightedPage) st'
  else st'.

(** [onDocumentLoadError] *)
Definition onDocumentLoadError (message : string) (st : State) : State :=
  {| numPages := numPages st; pageNumber := pageNumber st; scale := scale st;
     loading := false; error := Some ("Failed to load PDF: " +:+ message) |}.

(** The effect that runs when [fileUrl] changes. *)
Definition onFileUrl (st : State) : State :=
  {| numPages := numPages st; pageNumber := pageNumber st; scale := scale st;
     loading := true; error := None |}.

(** [changePage] *)
Definition changePage (offset : Z) (st : State) : State :=
  let newPage := pageNumber st + offset in
  if ((1 <=? newPage) && (newPage <=? numPages st))%bool
  then setPageNumber newPage st
  else st.

(** [changeScale]: [Math.max(0.5, Math.min(3.0, scale + scaleOffset))], on
    rationals. *)
Definition changeScale (scaleOffset : Q) (st : State) : State :=
  let newScale := Qmax (1 # 2) (Qmin 3 (scale st + scaleOffset)) in
  {| numPages := numPages st; pageNumber := pageNumber st; scale := newScale;
     loading := loading st; error := error st |}.

(** The effect that runs when [highlightedPage] or [numPages] changes. *)
Definition onHighlightedPage (highlightedPage : option Z) (st : State) : State :=
  if highlightApplies highlightedPage (numPages st)
  then setPageNumber (default 0 highlightedPage) st
  else st.

(** The [disabled] conditions of the four buttons. *)
Definition previousDisabled (st : State) : bool := pageNumber st <=? 1.
Definition nextDisabled (st : State) : bool := numPages st <=? pageNumber st.
Definition zoomOutDisabled (st : State) : bool := Qle_bool (scale st) (1 # 2).

(** What can happen to the reader once a document is shown. *)
Inductive Event :=
| ChangePage (offset : Z)
| ChangeScale (scaleOffset : Q)
| HighlightedPage (highlightedPage : option Z)
| LoadError (message : string).

Definition step (st : State) (e : Event) : State :=
  match e with
  | ChangePage offset => changePage offset st
  | ChangeScale scaleOffset => changeScale scaleOffset st
  | HighlightedPage highlightedPage => onHighlightedPage highlightedPage st
  | LoadError message => onDocumentLoadError message st
  end.

Definition run (st : State) (events : list Event) : State := fold_left step events st.

(** The prop [highlightedPage] is never negative. *)
Definition validEvent (e : Event) : Prop :=
  match e with
  | HighlightedPage (Some p) => 0 <= p
  | _ => True
  end.

(** The page and zoom of a reader that shows a document of [pages] pages. *)
Definition InRange (pages : Z) (st : State) : Prop :=
  numPages st = pages
  /\ 1 <= pageNumber st <= Z.max 1 pages
  /\ (1 # 2 <= scale st)%Q /\ (scale st <= 3)%Q.

End Reader.

(** ** Connectivity tests *)

(** One entry of the result of [testConnectivity]. *)
Record Availability := mkAvailability {
  available : bool;
  av_error : option string;
}.

Record Connectivity := mkConnectivity {
  conn_primary : Availability;
  conn_chatpdf : Availability;
}.

Section Connectivity.

Variable env : Env.
Variable net : Network.

(** What [GET {base}/health] answers, given the calls made so far and the
    URL.  The probe carries no payload and is not one of the provider calls
    of [Call]. *)
Variable fetchHealth : list Call -> string -> FetchResult unit unit.

(** [ChatPDFService.testConnection]; a response with [response.ok] has a
    status between 200 and 299, which is not 401. *)
Definition testConnection : M bool :=
  tryCatch
    (let* self := this in
     let request := {| au_apiKey := apiKey self;
                       au_url := "https://www.example.com/test.pdf" |} in
     let* response := perform (fun h => fetchAddUrl net h request) (CallAddUrl request) in
     match response with
     | FetchRejected e => throw (ErrorObject e)
     | FetchOk _ => ret true
     | FetchNotOk status _ _ => ret (negb (status =? 401))
     end)
    (fun error => ret false).

(** [error instanceof Error ? error.message : 'Connection failed'] *)
Definition connectionError (error : Thrown) : string :=
  if instanceofError error then Js.templateString (thrownMessage error)
  else "Connection failed".

(** [BackendFallbackService.testConnectivity] *)
Definition testConnectivity : M Connectivity :=
  let* primaryResult :=
    tryCatch
      (let* st := getState in
       match fetchHealth (calls st) (primaryBackendUrl env +:+ "/health") with
       | FetchRejected e => throw (ErrorObject e)
       | FetchOk _ => ret {| available := true; av_error := None |}
       | FetchNotOk status _ _ =>
           ret {| available := false;
                  av_error := Some ("HTTP " +:+ Js.numberToString status) |}
       end)
      (fun error =>
         ret {| available := false; av_error := Some (connectionError error) |}) in
  let* chatpdfResult :=
    tryCatch
      (let* chatPDFService := getChatPDFService env in
       match chatPDFService with
       | Some _ =>
           let* ok := testConnection in
           ret {| available := ok; av_error := None |}
       | None =>
           ret {| available := false; av_error := Some "Service not configured" |}
       end)
      (fun error =>
         ret {| available := false; av_error := Some (connectionError error) |}) in
  ret {| conn_primary := primaryResult; conn_chatpdf := chatpdfResult |}.

End Connectivity.

(** ** Relating the state before and after a computation *)

(** Every run of [c] takes a state to one related to it by [R], whether it
    returns or throws. *)
Definition Preserves {A} (R : State -> State -> Prop) (c : M A) : Prop :=
  forall st out st', c st = (out, st') -> R st st'.

(** No cached source id is changed or removed. *)
Definition CacheKept (st st' : State) : Prop :=
  forall documentId sourceId,
    cachedSourceId st documentId = Some sourceId ->
    cachedSourceId st' documentId = Some sourceId.

(** The cache is the same, entry by entry. *)
Definition CacheSame (st st' : State) : Prop :=
  forall documentId, cachedSourceId st' documentId = cachedSourceId st documentId.

(** Only calls to the third-party provider were added to the log. *)
Definition OnlyThirdPartyCalls (st st' : State) : Prop :=
  exists l, calls st' = calls st ++ l /\ forallb isThirdPartyCall l = true.

(** No call was added to the log. *)
Definition NoCall (st st' : State) : Prop := calls st' = calls st.

(** In [queryWithChatPDF]: the [documentInfo] built from the request. *)
Definition documentInfoOf (documentId : string) (documentData : option DocumentData)
  : DocumentInfo :=
  {| di_id := documentId;
     di_name := Js.orDefault (documentData ≫= document_name)
                  ("Document " +:+ documentId);
     di_url := Js.orElse (documentData ≫= document_url) (documentData ≫= file_url);
     di_file_size := documentData ≫= file_size;
     di_mime_type := documentData ≫= mime_type |}.

(** In [queryWithChatPDF]: the options given to [queryDocument]. *)
Definition fallbackQueryOptions (documentInfo : DocumentInfo) : QueryDocumentOptions :=
  {| qd_referenceSources := Some true;
     qd_temperature := Some (3 # 10)%Q;
     qd_stream := None;
     qd_extractSources := Some true;
     qd_documentInfo := Some documentInfo |}.

(** ** More example configurations *)

Module Fixture.

(** The third-party provider is configured and flagged as primary. *)
Definition envForced : Env :=
  {| VITE_API_BASE_URL := Some "https://api.example.org";
     VITE_CHATPDF_ACCESS_KEY := Some "sec_key";
     VITE_USE_CHATPDF := Some "true" |}.

(** The primary backend times out; the third-party provider answers and the
    extraction service fails. *)
Definition netPrimaryTimeout : Network :=
  {| fetchPrimaryQuery := fun _ _ =>
       FetchRejected (newDOMException "The operation was aborted." "AbortError");
     fetchAddUrl := fetchAddUrl Example.netUp;
     fetchChatMessage := fetchChatMessage Example.netUp;
     extractSources := extractSources Example.netUp;
     dateNow := dateNow Example.netUp |}.

(** The primary backend rejects the request as malformed. *)
Definition netBadRequest : Network :=
  {| fetchPrimaryQuery := fun _ _ => FetchNotOk 400 "Bad Request" (JsonValue tt);
     fetchAddUrl := fetchAddUrl Example.netUp;
     fetchChatMessage := fetchChatMessage Example.netUp;
     extractSources := extractSources Example.netUp;
     dateNow := dateNow Example.netUp |}.

(** A request whose document has no URL at all. *)
Definition optionsNoUrl : QueryOptions :=
  {| qo_message := "inclusion criteria";
     qo_documentId := "doc1";
     qo_documentData := None;
     qo_userId := "tok";
     qo_limit := None;
     qo_timeout := None |}.

(** The singleton exists and holds a source id for [doc7]. *)
Definition warm : State :=
  {| chatPDFService :=
       Some {| apiKey := "sec_key"; sourceCache := {[ "doc7" := "src_7" ]} |};
     calls := [] |}.

(** The health probe of a healthy, of an overloaded and of an unreachable
    primary backend. *)
Definition healthy : list Call -> string -> FetchResult unit unit :=
  fun _ _ => FetchOk (JsonValue tt).
Definition overloaded : list Call -> string -> FetchResult unit unit :=
  fun _ _ => FetchNotOk 503 "Service Unavailable" (JsonValue tt).
Definition unreachable : list Call -> string -> FetchResult unit unit :=
  fun _ _ => FetchRejected (newDOMException "The operation timed out." "TimeoutError").

(** The third-party provider rejects the API key. *)
Definition netUnauthorized : Network :=
  {| fetchPrimaryQuery := fetchPrimaryQuery Example.netUp;
     fetchAddUrl := fun _ _ =>
       FetchNotOk 401 "Unauthorized"
         (JsonValue {| ce_error := Some "Unauthorized"; ce_message := None |});
     fetchChatMessage := fetchChatMessage Example.netUp;
     extractSources := extractSources Example.netUp;
     dateNow := dateNow Example.netUp |}.

End Fixture.

(** ** The typing effect of the assistant ([DocumentRag.streamResponse]) *)

Module Streaming.

(** [s.split(" ")]: the pieces between the spaces, empty pieces included;
    the result is never empty. *)
Fixpoint split (s : string) : list string :=
  match s with
  | EmptyString => [EmptyString]
  | String c rest =>
      if Ascii.eqb c " " then EmptyString :: split rest
      else
        match split rest with
        | word :: words => String c word :: words
        | [] => [String c EmptyString]
        end
  end.

Section Chat.

(** The payloads a message carries; [streamResponse] only copies them. *)
Variables Sources Templates Actions ToolCalls : Type.

(** interface [ChatMessage] *)
Record ChatMessage := mkChatMessage {
  msg_id : string;
  msg_role : string;
  msg_content : string;
  msg_sources : option Sources;
  msg_downloadableTemplates : option Templates;
  msg_quickActions : option Actions;
  msg_tool_calls : option ToolCalls;
  msg_isStreaming : option bool;
  msg_streamedContent : option string;
}.

(** The optional [mockResponse] argument, read through [?.]. *)
Record MockResponse := mkMockResponse {
  mr_sources : option Sources;
  mr_downloadableTemplates : option Templates;
  mr_quickActions : option Actions;
}.

(** [{ ...msg, streamedContent: currentText }] for the message being
    streamed. *)
Definition setStreamedContent (messageId currentText : string)
  (prev : list ChatMessage) : list ChatMessage :=
  map (fun msg =>
         if String.eqb (msg_id msg) messageId then
           {| msg_id := msg_id msg;
              msg_role := msg_role msg;
              msg_content := msg_content msg;
              msg_sources := msg_sources msg;
              msg_downloadableTemplates := msg_downloadableTemplates msg;
              msg_quickActions := msg_quickActions msg;
              msg_tool_calls := msg_tool_calls msg;
              msg_isStreaming := msg_isStreaming msg;
              msg_streamedContent := Some currentText |}
         else msg)
    prev.

(** The last update: the full text, the end of streaming and the
    attachments. *)
Definition finishStreaming (fullText messageId : string)
  (mockResponse : option MockResponse) (prev : list ChatMessage) : list ChatMessage :=
  map (fun msg =>
         if String.eqb (msg_id msg) messageId then
           {| msg_id := msg_id msg;
              msg_role := msg_role msg;
              msg_content := fullText;
              msg_sources := mockResponse ≫= mr_sources;
              msg_downloadableTemplates := mockResponse ≫= mr_downloadableTemplates;
              msg_quickActions := mockResponse ≫= mr_quickActions;
              msg_tool_calls := msg_tool_calls msg;
              msg_isStreaming := Some false;
              msg_streamedContent := None |}
         else msg)
    prev.

(** The [for] loop over the words: the state updates it queues, in order,
    from the current value of [currentText]. *)
Fixpoint streamLoop (messageId : string) (words : list string) (currentText : string)
  : list (list ChatMessage -> list ChatMessage) :=
  match words with
  | [] => []
  | word :: rest =>
      let currentText := currentText +:+ (word +:+ " ") in
      setStreamedContent messageId currentText :: streamLoop messageId rest currentText
  end.

(** [streamResponse]: the updates given to [setChat], in order.  The delays
    between them and the saving of the history are not part of the chat
    state. *)
Definition streamResponse (fullText messageId : string)
  (mockResponse : option MockResponse)
  : list (list ChatMessage -> list ChatMessage) :=
  let words := split fullText in
  streamLoop messageId words "" ++ [finishStreaming fullText messageId mockResponse].

(** The successive values of the chat when the updates are applied one after
    the other and nothing else writes the chat in between. *)
Fixpoint applyUpdates (updates : list (list ChatMessage -> list ChatMessage))
  (chat : list ChatMessage) : list (list ChatMessage) :=
  match updates with
  | [] => []
  | update :: rest => let chat := update chat in chat :: applyUpdates rest chat
  end.

(** The text rendered for a message:
    [msg.isStreaming ? msg.streamedContent || "" : msg.content]. *)
Definition renderedText (msg : ChatMessage) : string :=
  if default false (msg_isStreaming msg) then Js.orDefault (msg_streamedContent msg) ""
  else msg_content msg.

End Chat.

Arguments msg_id {_ _ _ _} _.
Arguments msg_role {_ _ _ _} _.
Arguments msg_content {_ _ _ _} _.
Arguments msg_sources {_ _ _ _} _.
Arguments msg_downloadableTemplates {_ _ _ _} _.
Arguments msg_quickActions {_ _ _ _} _.
Arguments msg_tool_calls {_ _ _ _} _.
Arguments msg_isStreaming {_ _ _ _} _.
Arguments msg_streamedContent {_ _ _ _} _.
Arguments mkChatMessage {_ _ _ _} _ _ _ _ _ _ _ _ _.
Arguments mr_sources {_ _ _} _.
Arguments mr_downloadableTemplates {_ _ _} _.
Arguments mr_quickActions {_ _ _} _.
Arguments setStreamedContent {_ _ _ _} _ _ _.
Arguments finishStreaming {_ _ _ _} _ _ _ _.
Arguments streamLoop {_ _ _ _} _ _ _.
Arguments streamResponse {_ _ _ _} _ _ _.
Arguments applyUpdates {_ _ _ _} _ _.
Arguments renderedText {_ _ _ _} _.

(** The values [currentText] takes in the loop of [streamResponse]. *)
Fixpoint currentTexts (words : list string) (currentText : string) : list string :=
  match words with
  | [] => []
  | word :: rest =>
      let currentText := currentText +:+ (word +:+ " ") in
      currentText :: currentTexts rest currentText
  end.

(** A chat of two messages, the second one being streamed. *)
Definition exampleChat : list (ChatMessage unit unit unit unit) :=
  [ {| msg_id := "1-user"; msg_role := "user"; msg_content := "Which visits?";
       msg_sources := None; msg_downloadableTemplates := None;
       msg_quickActions := None; msg_tool_calls := None;
       msg_isStreaming := None; msg_streamedContent := None |};
    {| msg_id := "2-llm"; msg_role := "llm"; msg_content := "";
       msg_sources := None; msg_downloadableTemplates := None;
       msg_quickActions := None; msg_tool_calls := None;
       msg_isStreaming := Some true; msg_streamedContent := None |} ].

End Streaming.

(** ** The status button of a trial ([TrialOverview], [useUpdateTrial]) *)

Module Trials.

(** A JSON value of a row of the [trials] table. *)
Inductive Value :=
| VString (s : string)
| VNumber (n : Z)
| VBool (b : bool)
| VNull
| VUndefined.

(** A row, and a partial update of a row: properties by name. *)
Definition Trial := gmap string Value.
Definition TrialUpdate := gmap string Value.

Record Transition := mkTransition {
  label : string;
  nextStatus : option string;
}.

(** [statusTransitions[status]], for the five keys of the table.  Any other
    property name gives [undefined], or an inherited member of
    [Object.prototype], which has neither a [label] nor a [nextStatus]: both
    are read as absent. *)
Definition statusTransitions (status : string) : option Transition :=
  if String.eqb status "planning" then
    Some {| label := "Start Trial"; nextStatus := Some "active" |}
  else if String.eqb status "active" then
    Some {| label := "Pause Trial"; nextStatus := Some "paused" |}
  else if String.eqb status "paused" then
    Some {| label := "Resume Trial"; nextStatus := Some "active" |}
  else if String.eqb status "completed" then
    Some {| label := "Mark as Completed"; nextStatus := None |}
  else if String.eqb status "cancelled" then
    Some {| label := "Cancelled"; nextStatus := None |}
  else None.

(** The variables of a mutation of [useUpdateTrial]. *)
Record MutationVariables := mkMutationVariables {
  trialId : string;
  updates : TrialUpdate;
}.

(** [archiveTrial]: the mutation it starts, if any. *)
Definition archiveTrial (id status : string) : option MutationVariables :=
  match statusTransitions status ≫= nextStatus with
  | Some next =>
      if Js.truthy next then
        Some {| trialId := id; updates := {[ "status" := VString next ]} |}
      else None
  | None => None
  end.

(** The status button is rendered when
    [statusTransitions[trial.status]?.nextStatus] is truthy. *)
Definition showsStatusButton (status : string) : bool :=
  Js.truthyOpt (statusTransitions status ≫= nextStatus).

(** The text of the button, when it is rendered. *)
Definition buttonText (isPending : bool) (status : string) : option string :=
  if showsStatusButton status then
    if isPending then Some "Updating..."%string
    else label <$> statusTransitions status
  else None.

(** The entry of the query cache under [TRIALS_QUERY_KEYS.lists()], the only
    one [onMutate] and [onError] write: the list of trials, if it was
    fetched. *)
Definition ListCache := option (list Trial).

(** The context [onMutate] returns. *)
Record Context := mkContext {
  previousTrials : option (list Trial);
}.

(** [{ ...t, ...updates }]: the properties of [updates] win. *)
Definition spread (t : Trial) (u : TrialUpdate) : Trial := u ∪ t.

(** [t.id === trialId] *)
Definition hasId (t : Trial) (id : string) : bool :=
  match t !! "id" with
  | Some (VString s) => String.eqb s id
  | _ => false
  end.

(** [onMutate]: the optimistic update of the list. *)
Definition onMutate (v : MutationVariables) (cache : ListCache) : ListCache * Context :=
  let previousTrials := cache in
  let cache :=
    match previousTrials with
    | Some _ =>
        (fun old => map (fun t => if hasId t (trialId v)
                                  then spread t (updates v) else t) old)
          <$> cache
    | None => cache
    end in
  (cache, {| previousTrials := previousTrials |}).

(** [onError]: the rollback. *)
Definition onError (context : option Context) (cache : ListCache) : ListCache :=
  match context ≫= previousTrials with
  | Some trials => Some trials
  | None => cache
  end.

(** The status the page shows after [n] clicks on the button, when the
    server applies each update as it was sent. *)
Fixpoint clicks (n : nat) (id status : string) : string :=
  match n with
  | O => status
  | S n' =>
      match archiveTrial id status with
      | Some v =>
          match updates v !! "status" with
          | Some (VString next) => clicks n' id next
          | _ => status
          end
      | None => status
      end
  end.

(** Two trials in the list cache. *)
Definition exampleTrials : list Trial :=
  [ {[ "id" := VString "t1"; "status" := VString "active"; "name" := VString "A" ]};
    {[ "id" := VString "t2"; "status" := VString "planning"; "name" := VString "B" ]} ].

End Trials.

(** * Properties *)

(** ** Strings *)

Lemma append_nil_l (b : string) : "" +:+ b = b.
Proof. reflexivity. Qed.

Lemma append_cons (c : ascii) (a b : string) :
  String c a +:+ b = String c (a +:+ b).
Proof. reflexivity. Qed.

Lemma append_assoc (a b c : string) : (a +:+ b) +:+ c = a +:+ (b +:+ c).
Proof.
  induction a as [|x a IH]; [reflexivity|].
  now rewrite !append_cons, IH.
Qed.

Lemma append_empty_r (a : string) : a +:+ "" = a.
Proof.
  induction a as [|x a IH]; [reflexivity|]. now rewrite append_cons, IH.
Qed.






Lemma truthy_append_l (a b : string) :
  Js.truthy a = true -> Js.truthy (a +:+ b) = true.
Proof. destruct a; [discriminate | reflexivity]. Qed.

(** ** Failure classification *)









(** ** Running the services *)

Ltac run :=
  unfold tryCatch, bind, ret, throw, perform, getState, putService, DateNow;
  cbn [fst snd chatPDFService calls].

Lemma thirdPartyCalls_app (l1 l2 : list Call) :
  thirdPartyCalls (l1 ++ l2) = thirdPartyCalls l1 ++ thirdPartyCalls l2.
Proof. apply List.filter_app. Qed.

Lemma uploadCount_app (l1 l2 : list Call) :
  uploadCount (l1 ++ l2) = (uploadCount l1 + uploadCount l2)%nat.
Proof. unfold uploadCount. now rewrite List.filter_app, length_app. Qed.

Ltac break_match :=
  match goal with
  | |- context [match ?x with _ => _ end] => destruct x eqn:?
  | H : context [match ?x with _ => _ end] |- _ => destruct x eqn:?
  end.

(** *** The primary backend client *)

Lemma queryPrimaryBackend_effect env net message documentId userId limit timeout
  st out st' :
  queryPrimaryBackend env net message documentId userId limit timeout st = (out, st') ->
  chatPDFService st' = chatPDFService st
  /\ exists r, calls st' = calls st ++ [CallPrimaryQuery r].
Proof.
  unfold queryPrimaryBackend. run. intros H.
  repeat (break_match; simplify_eq/=); eauto.
Qed.

Lemma queryPrimaryBackend_throws_Error env net message documentId userId limit
  timeout st t st' :
  queryPrimaryBackend env net message documentId userId limit timeout st
  = (Threw t, st') ->
  exists e, t = ErrorObject e.
Proof.
  unfold queryPrimaryBackend. run. intros H.
  repeat (break_match; simplify_eq/=); eauto.
Qed.

(** *** The orchestrator, when the primary backend answers *)

(** C2. When the third-party provider is not the forced primary and the
    primary backend call succeeds, [query] returns that answer tagged
    [primary]; the third-party client is not invoked: no call to it is
    logged, and its singleton is left as it was. *)
Theorem query_primary_success env net options st response st1 :
  shouldUseChatPDFAsPrimary env = false ->
  queryPrimaryBackend env net (qo_message options) (qo_documentId options)
    (qo_userId options) (default 5 (qo_limit options))
    (Js.numberOr (qo_timeout options) requestTimeout) st
  = (Returned response, st1) ->
  query env net options st
  = (Returned {| br_response := res_response response;
                 br_sources := res_sources response;
                 br_source := primary;
                 br_timestamp := dateNow net (calls st1) |}, st1)
  /\ thirdPartyCalls (calls st1) = thirdPartyCalls (calls st)
  /\ chatPDFService st1 = chatPDFService st.
Proof.
  intros Hflag Hprimary. split.
  - unfold query. rewrite Hflag. run. now rewrite Hprimary.
  - destruct (queryPrimaryBackend_effect _ _ _ _ _ _ _ _ _ _ Hprimary) as [Hsvc [r Hcalls]].
    split; [|exact Hsvc].
    rewrite Hcalls, thirdPartyCalls_app. cbn. apply app_nil_r.
Qed.

Lemma query_primary_success_witness :
  shouldUseChatPDFAsPrimary Example.env = false
  /\ (exists response st1,
        queryPrimaryBackend Example.env Example.netUp "inclusion criteria" "doc1" "tok"
          5 120000 Example.initial = (Returned response, st1)
        /\ (exists r,
              query Example.env Example.netUp Example.options Example.initial
              = (Returned r, st1)
              /\ br_source r = primary
              /\ br_response r = "Adults aged 18 to 75.")
        /\ thirdPartyCalls (calls st1) = []).
Proof.
  split; [reflexivity|].
  eexists _, _. split; [reflexivity|].
  destruct (query_primary_success Example.env Example.netUp Example.options
              Example.initial _ _ eq_refl eq_refl) as [Hq [Hc _]].
  split; [|exact Hc].
  eexists. split; [exact Hq|]. split; reflexivity.
Defined.

(** *** The third-party client *)

Ltac unfold_services :=
  unfold queryWithChatPDF, getSourceId, uploadDocumentByUrl, queryDocument,
    callExtractSources, sourceCacheSet, getChatPDFService, this.

Lemma getChatPDFService_absent env st :
  Js.truthyOpt (VITE_CHATPDF_ACCESS_KEY env) = false ->
  getChatPDFService env st = (Returned None, st).
Proof.
  unfold getChatPDFService, Js.truthyOpt. intros H.
  destruct (VITE_CHATPDF_ACCESS_KEY env) as [k|]; [|reflexivity].
  now rewrite H.
Qed.

Lemma getChatPDFService_present env st :
  Js.truthyOpt (VITE_CHATPDF_ACCESS_KEY env) = true ->
  exists svc st',
    getChatPDFService env st = (Returned (Some svc), st')
    /\ chatPDFService st' = Some svc
    /\ calls st' = calls st
    /\ getChatPDFService env st' = (Returned (Some svc), st').
Proof.
  unfold getChatPDFService, Js.truthyOpt. intros H.
  destruct (VITE_CHATPDF_ACCESS_KEY env) as [k|]; [|discriminate].
  rewrite H. run. cbn [negb]. destruct (chatPDFService st) as [svc|] eqn:Hsvc.
  - exists svc, st. rewrite Hsvc. auto.
  - eexists _, _. split; [reflexivity|]. cbn. auto.
Qed.

Lemma getChatPDFService_idem env st o st' :
  getChatPDFService env st = (Returned o, st') ->
  getChatPDFService env st' = (Returned o, st').
Proof.
  intros H. destruct (Js.truthyOpt (VITE_CHATPDF_ACCESS_KEY env)) eqn:Hk.
  - destruct (getChatPDFService_present env st Hk) as [svc [st2 [H1 [_ [_ H2]]]]].
    rewrite H1 in H. now simplify_eq.
  - rewrite (getChatPDFService_absent env st Hk) in H. simplify_eq.
    now apply getChatPDFService_absent.
Qed.

Lemma bind_getChatPDFService_idem {A} env (k : option ChatPDFService -> M A) st o st' :
  getChatPDFService env st = (Returned o, st') ->
  bind (getChatPDFService env) k st' = bind (getChatPDFService env) k st.
Proof.
  intros H. unfold bind. now rewrite H, (getChatPDFService_idem env st o st' H).
Qed.

(** Asking for the singleton first does not change what the fallback path
    does. *)
Lemma queryWithChatPDF_after_get env net message documentId documentData st o st' :
  getChatPDFService env st = (Returned o, st') ->
  queryWithChatPDF env net message documentId documentData st'
  = queryWithChatPDF env net message documentId documentData st.
Proof.
  intros H. unfold queryWithChatPDF. now apply bind_getChatPDFService_idem with o.
Qed.

Lemma queryWithChatPDF_throws_Error env net message documentId documentData st t st' :
  queryWithChatPDF env net message documentId documentData st = (Threw t, st') ->
  exists e, t = ErrorObject e.
Proof.
  unfold_services. run. intros H.
  repeat (break_match; simplify_eq/=); eauto.
Qed.

(** *** The orchestrator, when both providers fail *)

(** C3. When the primary backend call fails with a retryable error and the
    fallback call (made because the third-party provider is configured) fails
    too, [query] rejects with one [BackendError] whose message carries the
    message of the primary error and the message of the fallback error, and
    which is marked [canRetry = false], [suggestFallback = false]. *)
Theorem query_both_failed env net options st primaryError st1 fallbackError st2 :
  shouldUseChatPDFAsPrimary env = false ->
  Js.truthyOpt (VITE_CHATPDF_ACCESS_KEY env) = true ->
  queryPrimaryBackend env net (qo_message options) (qo_documentId options)
    (qo_userId options) (default 5 (qo_limit options))
    (Js.numberOr (qo_timeout options) requestTimeout) st
  = (Threw primaryError, st1) ->
  shouldUseFallback primaryError = true ->
  queryWithChatPDF env net (qo_message options) (qo_documentId options)
    (qo_documentData options) st1
  = (Threw fallbackError, st2) ->
  exists pe fe b,
    primaryError = ErrorObject pe
    /\ fallbackError = ErrorObject fe
    /\ query env net options st = (Threw (BackendErrorObject b), st2)
    /\ be_error b = "Both services failed. Primary: " +:+ err_message pe
                    +:+ ". Fallback: " +:+ err_message fe
    /\ Js.Contains (be_error b) (err_message pe)
    /\ Js.Contains (be_error b) (err_message fe)
    /\ be_canRetry b = false
    /\ be_suggestFallback b = false.
Proof.
  intros Hflag Hkey Hprimary Hretry Hfallback.
  destruct (queryPrimaryBackend_throws_Error _ _ _ _ _ _ _ _ _ _ Hprimary) as [pe ->].
  destruct (queryWithChatPDF_throws_Error _ _ _ _ _ _ _ _ Hfallback) as [fe ->].
  destruct (getChatPDFService_present env st1 Hkey) as [svc [st1' [Hget _]]].
  exists pe, fe, (createFallbackError (ErrorObject pe) (ErrorObject fe)).
  split; [reflexivity|]. split; [reflexivity|]. split.
  - unfold query. rewrite Hflag. unfold tryCatch at 1. unfold bind at 1.
    rewrite Hprimary. unfold bind at 1. rewrite Hget.
    rewrite bool_decide_true by eauto. rewrite Hretry. cbn [andb].
    unfold tryCatch.
    rewrite (queryWithChatPDF_after_get _ _ _ _ _ _ _ _ Hget), Hfallback.
    reflexivity.
  - cbn. split; [reflexivity|]. split; [|split; [|split; reflexivity]].
    + exists "Both services failed. Primary: "%string,
        (". Fallback: " +:+ err_message fe). reflexivity.
    + exists ("Both services failed. Primary: " +:+ err_message pe +:+ ". Fallback: "),
        ""%string.
      now rewrite append_empty_r, !append_assoc.
Qed.

Lemma query_both_failed_witness :
  exists b st2,
    query Example.env Example.netDown Example.options Example.initial
    = (Threw (BackendErrorObject b), st2)
    /\ be_error b
       = "Both services failed. Primary: Primary backend error: 503 Service Unavailable. Fallback: NetworkError when attempting to fetch resource."
    /\ be_canRetry b = false
    /\ be_suggestFallback b = false.
Proof.
  destruct (query_both_failed Example.env Example.netDown Example.options
              Example.initial _ _ _ _ eq_refl eq_refl eq_refl eq_refl eq_refl)
    as [pe [fe [b [Hpe [Hfe [Hq [Hmsg [_ [_ [Hretry Hoffer]]]]]]]]]].
  exists b. eexists. split; [exact Hq|].
  inversion Hpe; subst pe. inversion Hfe; subst fe.
  split; [exact Hmsg|]. split; assumption.
Defined.

(** *** The source-id cache *)

Lemma getSourceId_hit net document st sid :
  cachedSourceId st (di_id document) = Some sid ->
  getSourceId net document st = (Returned sid, st).
Proof.
  unfold cachedSourceId, getSourceId, this. run. intros H.
  destruct (chatPDFService st) as [svc|]; [|discriminate].
  cbn in H |- *. now rewrite H.
Qed.

Lemma uploadDocumentByUrl_effect net url st out st1 :
  uploadDocumentByUrl net url st = (out, st1) ->
  chatPDFService st1 = chatPDFService st
  /\ (calls st1 = calls st
      \/ exists r, calls st1 = calls st ++ [CallAddUrl r]).
Proof.
  unfold uploadDocumentByUrl, this. run. intros H.
  repeat (break_match; simplify_eq/=); eauto.
Qed.

Lemma uploadDocumentByUrl_returns net url st sid st1 :
  uploadDocumentByUrl net url st = (Returned sid, st1) ->
  chatPDFService st1 = chatPDFService st
  /\ is_Some (chatPDFService st)
  /\ exists r, calls st1 = calls st ++ [CallAddUrl r].
Proof.
  unfold uploadDocumentByUrl, this. run. intros H.
  repeat (break_match; simplify_eq/=); eauto.
Qed.

(** What a miss does: the upload, then the insertion. *)
Lemma getSourceId_miss net document st svc :
  chatPDFService st = Some svc ->
  sourceCache svc !! di_id document = None ->
  getSourceId net document st
  = match di_url document with
    | Some url =>
        if Js.truthy url then
          match uploadDocumentByUrl net url st with
          | (Returned sourceId, st') =>
              (Returned sourceId,
               {| chatPDFService :=
                    Some {| apiKey := apiKey svc;
                            sourceCache := <[di_id document := sourceId]> (sourceCache svc) |};
                  calls := calls st' |})
          | (Threw t, st') => (Threw t, st')
          end
        else (Threw (ErrorObject (newError "Document URL is required for ChatPDF upload")), st)
    | None => (Threw (ErrorObject (newError "Document URL is required for ChatPDF upload")), st)
    end.
Proof.
  intros Hsvc Hmiss. unfold getSourceId, sourceCacheSet, this. run.
  rewrite Hsvc, Hmiss.
  destruct (di_url document) as [url|]; [|reflexivity].
  destruct (Js.truthy url); [|reflexivity].
  destruct (uploadDocumentByUrl net url st) as [[sourceId|t] st'] eqn:Hup;
    [|reflexivity].
  apply uploadDocumentByUrl_returns in Hup. destruct Hup as [Hs _].
  rewrite Hs, Hsvc. reflexivity.
Qed.

(** C4. A document whose id has a cached source id is answered from the
    cache: [getSourceId] returns the cached id and leaves the state, hence the
    log of network calls, as it was.  Consequently, when a first call for an
    uncached document succeeds, calling again returns the same id, and the two
    calls together made exactly one upload. *)
Theorem getSourceId_cached net document :
  (forall st sid,
      cachedSourceId st (di_id document) = Some sid ->
      getSourceId net document st = (Returned sid, st))
  /\ (forall st sid st1,
        cachedSourceId st (di_id document) = None ->
        getSourceId net document st = (Returned sid, st1) ->
        cachedSourceId st1 (di_id document) = Some sid
        /\ (let* _ := getSourceId net document in getSourceId net document) st
           = (Returned sid, st1)
        /\ uploadCount (calls st1) = S (uploadCount (calls st))).
Proof.
  split; [intros st sid; apply getSourceId_hit|].
  intros st sid st1 Hmiss Hfirst.
  assert (Hcached : cachedSourceId st1 (di_id document) = Some sid
                    /\ uploadCount (calls st1) = S (uploadCount (calls st))).
  { destruct (chatPDFService st) as [svc|] eqn:Hsvc.
    - unfold cachedSourceId in Hmiss. rewrite Hsvc in Hmiss. cbn in Hmiss.
      rewrite (getSourceId_miss net document st svc Hsvc Hmiss) in Hfirst.
      destruct (di_url document) as [url|]; [|discriminate].
      destruct (Js.truthy url); [|discriminate].
      destruct (uploadDocumentByUrl net url st) as [[sourceId|t] st'] eqn:Hup;
        [|discriminate].
      simplify_eq. apply uploadDocumentByUrl_returns in Hup.
      destruct Hup as [_ [_ [r Hcalls]]]. split.
      + unfold cachedSourceId. cbn. apply lookup_insert_eq.
      + cbn [calls]. rewrite Hcalls, uploadCount_app. cbn. lia.
    - unfold getSourceId, this in Hfirst. revert Hfirst. run.
      rewrite Hsvc. discriminate. }
  destruct Hcached as [Hc Hn]. split; [exact Hc|]. split; [|exact Hn].
  unfold bind. rewrite Hfirst. now apply getSourceId_hit.
Qed.

Lemma getSourceId_cached_witness :
  exists st1,
    getSourceId Example.netUp Example.document Example.started
    = (Returned "src_1"%string, st1)
    /\ (let* _ := getSourceId Example.netUp Example.document in
        getSourceId Example.netUp Example.document) Example.started
       = (Returned "src_1"%string, st1)
    /\ getSourceId Example.netUp Example.document st1 = (Returned "src_1"%string, st1)
    /\ uploadCount (calls st1) = 1%nat.
Proof.
  eexists. split; [reflexivity|].
  destruct (getSourceId_cached Example.netUp Example.document) as [Hhit Hmiss].
  destruct (Hmiss Example.started _ _ eq_refl eq_refl) as [Hc [Htwice Hn]].
  split; [exact Htwice|]. split; [exact (Hhit _ _ Hc) | exact Hn].
Defined.

(** C5. An entry enters the cache only after a successful upload: when the
    document has no URL, or the upload throws, [getSourceId] throws the same
    error and the singleton (with its cache) is unchanged; and whenever a call
    for an uncached document returns, the upload returned that source id and
    the cache is the old one with exactly this entry added. *)
Theorem getSourceId_caches_after_upload net document st :
  (forall t st1,
      getSourceId net document st = (Threw t, st1) ->
      chatPDFService st1 = chatPDFService st)
  /\ (forall svc,
        chatPDFService st = Some svc ->
        sourceCache svc !! di_id document = None ->
        Js.truthyOpt (di_url document) = false ->
        getSourceId net document st
        = (Threw (ErrorObject (newError "Document URL is required for ChatPDF upload")),
           st))
  /\ (forall svc url t st1,
        chatPDFService st = Some svc ->
        sourceCache svc !! di_id document = None ->
        di_url document = Some url ->
        Js.truthy url = true ->
        uploadDocumentByUrl net url st = (Threw t, st1) ->
        getSourceId net document st = (Threw t, st1))
  /\ (forall svc sid st1,
        chatPDFService st = Some svc ->
        sourceCache svc !! di_id document = None ->
        getSourceId net document st = (Returned sid, st1) ->
        exists url st',
          di_url document = Some url
          /\ uploadDocumentByUrl net url st = (Returned sid, st')
          /\ calls st1 = calls st'
          /\ chatPDFService st1
             = Some {| apiKey := apiKey svc;
                       sourceCache := <[di_id document := sid]> (sourceCache svc) |}).
Proof.
  split; [|split; [|split]].
  - intros t st1 H. destruct (chatPDFService st) as [svc|] eqn:Hsvc.
    + destruct (sourceCache svc !! di_id document) as [sid|] eqn:Hc.
      * rewrite (getSourceId_hit net document st sid) in H; [discriminate|].
        unfold cachedSourceId. now rewrite Hsvc.
      * rewrite (getSourceId_miss net document st svc Hsvc Hc) in H.
        destruct (di_url document) as [url|]; [|now simplify_eq].
        destruct (Js.truthy url); [|now simplify_eq].
        destruct (uploadDocumentByUrl net url st) as [[sourceId|t'] st'] eqn:Hup;
          [discriminate|].
        simplify_eq. apply uploadDocumentByUrl_effect in Hup.
        destruct Hup as [Hs _]. congruence.
    + revert H. unfold getSourceId, this. run. rewrite Hsvc. intros H. now simplify_eq.
  - intros svc Hsvc Hc Hurl. rewrite (getSourceId_miss net document st svc Hsvc Hc).
    unfold Js.truthyOpt in Hurl. destruct (di_url document) as [url|]; [|reflexivity].
    now rewrite Hurl.
  - intros svc url t st1 Hsvc Hc Hurl Htr Hup.
    rewrite (getSourceId_miss net document st svc Hsvc Hc), Hurl, Htr, Hup.
    reflexivity.
  - intros svc sid st1 Hsvc Hc H.
    rewrite (getSourceId_miss net document st svc Hsvc Hc) in H.
    destruct (di_url document) as [url|]; [|discriminate].
    destruct (Js.truthy url); [|discriminate].
    destruct (uploadDocumentByUrl net url st) as [[sourceId|t'] st'] eqn:Hup;
      [|discriminate].
    simplify_eq. exists url, st'. auto.
Qed.

Lemma getSourceId_caches_after_upload_witness :
  getSourceId Example.netDown Example.document Example.started
  = (Threw (ErrorObject (newTypeError "NetworkError when attempting to fetch resource.")),
     {| chatPDFService := chatPDFService Example.started;
        calls := [CallAddUrl {| au_apiKey := "sec_key";
                                au_url := "https://files.example.org/protocol.pdf" |}] |})
  /\ getSourceId Example.netUp Example.documentNoUrl Example.started
     = (Threw (ErrorObject (newError "Document URL is required for ChatPDF upload")),
        Example.started).
Proof.
  split.
  - destruct (getSourceId_caches_after_upload Example.netDown Example.document
                Example.started) as [_ [_ [Hthrow _]]].
    exact (Hthrow _ _ _ _ eq_refl eq_refl eq_refl eq_refl eq_refl).
  - destruct (getSourceId_caches_after_upload Example.netUp Example.documentNoUrl
                Example.started) as [_ [Hnourl _]].
    exact (Hnourl _ eq_refl eq_refl eq_refl).
Defined.

(** *** Coarse citations *)

Lemma degradedSource_coarse documentInfo ref :
  CoarseCitation (pageNumber ref) (degradedSource documentInfo ref).
Proof. repeat split. Qed.

Lemma Forall2_map_r {A B} (R : A -> B -> Prop) (f : A -> B) (l : list A) :
  (forall a, R a (f a)) -> Forall2 R l (map f l).
Proof. intros H. induction l; constructor; auto. Qed.

(** C6. A third-party response without enhanced sources and with
    [references = [{pageNumber: 5}]] is turned into exactly one source, which
    the adapter renders as one unified citation with page 5 and section
    [Page 5].  And when the extraction assist fails after a successful chat
    answer, [queryDocument] does not throw: it returns the answer with one
    coarse citation per page reference, with section [Page N], text
    [Content from page N] and relevance [medium]; the orchestrator and the
    adapter keep these four fields. *)
Theorem degrade_to_page_references :
  (forall now documentInfo content timestamp,
      exists u,
        ur_sources
          (adaptBackendResponse now
             (ofBackendResponse
                {| br_response := content;
                   br_sources :=
                     Some (transformSources documentInfo
                             {| cq_content := content;
                                cq_references := Some [Example.page5];
                                cq_sources := None |});
                   br_source := chatpdf;
                   br_timestamp := timestamp |})) = [u]
        /\ us_page u = 5
        /\ us_section u = "Page 5"
        /\ us_exactText u = "Content from page 5"
        /\ us_relevance u = "medium")
  /\ (forall net sourceId question options documentInfo st svc data t,
        chatPDFService st = Some svc ->
        options ≫= qd_documentInfo = Some documentInfo ->
        options ≫= qd_extractSources = Some true ->
        let request := chatMessageRequest (apiKey svc) sourceId question options in
        fetchChatMessage net (calls st) request = FetchOk (JsonValue data) ->
        extractSources net (calls st ++ [CallChatMessage request])
          {| ex_question := question;
             ex_answer := cb_content data;
             ex_documentInfo := documentInfo;
             ex_references := cb_references data |} = Threw t ->
        exists sources st',
          queryDocument net sourceId question options st
          = (Returned {| cq_content := cb_content data;
                         cq_references := Some (default [] (cb_references data));
                         cq_sources := Some sources |}, st')
          /\ Forall2 (fun ref c => CoarseCitation (pageNumber ref) c)
               (default [] (cb_references data)) sources
          /\ length sources = length (default [] (cb_references data)))
  /\ (forall documentInfo ref,
        let u := adaptBackendSource (enhancedSource (degradedSource documentInfo ref)) in
        us_page u = pageNumber ref
        /\ us_section u = "Page " +:+ Js.numberToString (pageNumber ref)
        /\ us_exactText u = "Content from page " +:+ Js.numberToString (pageNumber ref)
        /\ us_relevance u = "medium").
Proof.
  split; [|split].
  - intros now documentInfo content timestamp. eexists. split; [reflexivity|].
    repeat split.
  - intros net sourceId question options documentInfo st svc data t
      Hsvc Hdoc Hext request Hchat Hfail.
    exists (map (degradedSource (Some documentInfo)) (default [] (cb_references data))).
    eexists. split; [|split].
    + subst request. unfold queryDocument, callExtractSources, this. run.
      rewrite Hsvc, Hchat, Hdoc, Hext. cbn. cbn in Hfail. rewrite Hfail.
      reflexivity.
    + apply Forall2_map_r. intros ref. apply degradedSource_coarse.
    + apply length_map.
  - intros documentInfo ref. cbv zeta.
    unfold adaptBackendSource, enhancedSource, degradedSource.
    cbn [us_page us_section us_exactText us_relevance rs_page rs_section
         rs_exactText rs_content rs_relevance cs_page cs_section cs_exactText
         cs_relevance].
    split; [|split; [|split]].
    + unfold Js.numberOr. destruct (pageNumber ref =? 0) eqn:E; [|reflexivity].
      apply Z.eqb_eq in E. now rewrite E.
    + unfold Js.orDefault. now rewrite !truthy_append_l by reflexivity.
    + unfold Js.orElse, Js.truthyOpt, Js.orDefault.
      now rewrite !truthy_append_l by reflexivity.
    + reflexivity.
Qed.

Lemma degrade_to_page_references_witness :
  exists sources st',
    queryDocument Example.netUp "src_1" "inclusion criteria"
      (Some {| qd_referenceSources := Some true;
               qd_temperature := Some (3 # 10)%Q;
               qd_stream := None;
               qd_extractSources := Some true;
               qd_documentInfo := Some Example.document |})
      Example.started
    = (Returned {| cq_content := "See page 5.";
                   cq_references := Some [Example.page5];
                   cq_sources := Some sources |}, st')
    /\ Forall2 (fun ref c => CoarseCitation (pageNumber ref) c) [Example.page5] sources
    /\ length sources = 1%nat.
Proof.
  destruct degrade_to_page_references as [_ [H _]].
  exact (H Example.netUp "src_1"%string "inclusion criteria"%string
           (Some {| qd_referenceSources := Some true;
                    qd_temperature := Some (3 # 10)%Q;
                    qd_stream := None;
                    qd_extractSources := Some true;
                    qd_documentInfo := Some Example.document |})
           Example.document Example.started _
           {| cb_content := "See page 5."; cb_references := Some [Example.page5] |}
           _ eq_refl eq_refl eq_refl eq_refl eq_refl).
Defined.

(** ** The response normalizer *)

Lemma orDefault_absent (o : option string) (d : string) :
  Js.truthyOpt o = false -> Js.orDefault o d = d.
Proof. destruct o as [s|]; simpl; [intros ->|]; reflexivity. Qed.

Lemma orDefault_present (o : option string) (d s : string) :
  o = Some s -> Js.truthy s = true -> Js.orDefault o d = s.
Proof. intros -> H. simpl. now rewrite H. Qed.

Lemma nonEmptyBBoxes_spec (raw : option BBoxes) (boxes : BBoxes) :
  nonEmptyBBoxes raw = Some boxes <-> raw = Some boxes /\ boxes <> [].
Proof.
  destruct raw as [[|x l]|]; simpl; split.
  - discriminate.
  - intros [H Hne]. inversion H; subst. contradiction.
  - intros H. inversion H; subst. split; [reflexivity | discriminate].
  - now intros [H _].
  - discriminate.
  - now intros [H _].
Qed.

(** C7, as the code has it.  [adaptBackendResponse] replaces an absent (or
    empty) section by [Document Section], relevance by [medium], context by
    [Context from backend analysis] and highlightURL by the empty string, and
    passes the bounding boxes through exactly when the raw array is
    non-empty, omitting the field otherwise.  [adaptChatPDFResponse]
    replaces an absent section by [Document Section], relevance by [high],
    context by [Context from ChatPDF analysis] and, when the raw page is
    present, highlightURL by [{documentUrl}#page={page}]; it emits no
    bounding boxes.  Citations reported by the LLM client have relevance
    [high].  A field that is present and non-empty is kept. *)
Theorem adapters_defaults (source : RawSource) (documentUrl : string) :
  let b := adaptBackendSource source in
  let c := adaptChatPDFSource documentUrl source in
  (Js.truthyOpt (rs_section source) = false ->
     us_section b = "Document Section" /\ us_section c = "Document Section")
  /\ (Js.truthyOpt (rs_relevance source) = false ->
        us_relevance b = "medium" /\ us_relevance c = "high")
  /\ (Js.truthyOpt (rs_context source) = false ->
        us_context b = "Context from backend analysis"
        /\ us_context c = "Context from ChatPDF analysis")
  /\ (Js.truthyOpt (rs_highlightURL source) = false ->
        us_highlightURL b = ""
        /\ forall page, rs_page source = Some page ->
             us_highlightURL c
             = documentUrl +:+ "#page=" +:+ Js.numberToString page)
  /\ (forall s, Js.truthy s = true ->
        (rs_section source = Some s -> us_section b = s /\ us_section c = s)
        /\ (rs_relevance source = Some s -> us_relevance b = s /\ us_relevance c = s)
        /\ (rs_context source = Some s -> us_context b = s /\ us_context c = s)
        /\ (rs_highlightURL source = Some s ->
              us_highlightURL b = s /\ us_highlightURL c = s))
  /\ (forall boxes,
        us_bboxes b = Some boxes <-> rs_bboxes source = Some boxes /\ boxes <> [])
  /\ us_bboxes b <> Some []
  /\ us_bboxes c = None
  /\ (forall citation,
        us_relevance (adaptAnthropicCitation documentUrl citation) = "high").
Proof.
  cbv zeta. unfold adaptBackendSource, adaptChatPDFSource.
  cbn [us_section us_relevance us_context us_highlightURL us_bboxes].
  split; [intros H; now rewrite !(orDefault_absent _ _ H)|].
  split; [intros H; now rewrite !(orDefault_absent _ _ H)|].
  split; [intros H; now rewrite !(orDefault_absent _ _ H)|].
  split.
  { intros H. rewrite !(orDefault_absent _ _ H). split; [reflexivity|].
    intros page Hpage. now rewrite Hpage. }
  split.
  { intros s Hs. split; [|split; [|split]]; intros Hx;
      split; now apply orDefault_present. }
  split; [intros boxes; apply nonEmptyBBoxes_spec|].
  split.
  { intros H. apply nonEmptyBBoxes_spec in H. now destruct H. }
  split; [reflexivity|]. intros citation. reflexivity.
Qed.

Lemma adapters_defaults_witness :
  us_section (adaptBackendSource Example.eligibility) = "Eligibility"
  /\ us_relevance (adaptBackendSource Example.eligibility) = "medium"
  /\ us_relevance (adaptChatPDFSource "https://files.example.org/protocol.pdf"
                     Example.eligibility) = "high"
  /\ us_highlightURL (adaptChatPDFSource "https://files.example.org/protocol.pdf"
                        Example.eligibility)
     = "https://files.example.org/protocol.pdf#page=3".
Proof.
  destruct (adapters_defaults Example.eligibility
              "https://files.example.org/protocol.pdf")
    as [_ [Hrel [_ [Hurl [Hkeep _]]]]].
  destruct (Hkeep "Eligibility"%string eq_refl) as [Hsec _].
  destruct (Hrel eq_refl) as [Hb Hc]. destruct (Hurl eq_refl) as [_ Hpage].
  split; [exact (proj1 (Hsec eq_refl))|]. split; [exact Hb|]. split; [exact Hc|].
  exact (Hpage 3 eq_refl).
Defined.

(** C7, as stated, fails for [adaptBackendResponse]: an absent highlightURL
    becomes the empty string, which is not [{documentUrl}#page=3] for any
    document URL. *)
Lemma adaptBackendSource_highlightURL_not_page_url :
  rs_highlightURL Example.eligibility = None
  /\ us_highlightURL (adaptBackendSource Example.eligibility) = ""
  /\ ~ exists documentUrl,
         us_highlightURL (adaptBackendSource Example.eligibility)
         = documentUrl +:+ "#page=" +:+ Js.numberToString 3.
Proof.
  split; [reflexivity|]. split; [reflexivity|].
  intros [documentUrl H]. cbn in H. destruct documentUrl; discriminate.
Qed.

(** C8, as the code has it.  Every citation of the normalized response is the
    image of a raw source: its page is the raw page (0 when absent), so it is
    non-negative whenever the raw page is absent or non-negative; its text is
    empty exactly when the raw exactText and content are both absent or
    empty.  The sources the fallback path synthesizes from page references
    always carry the section [Page N] and the non-empty text
    [Content from page N]. *)
Theorem adaptBackendResponse_citations now backendResponse u :
  In u (ur_sources (adaptBackendResponse now backendResponse)) ->
  (exists source,
      In source (default [] (any_sources backendResponse))
      /\ u = adaptBackendSource source
      /\ us_page u = Js.numberOr (rs_page source) 0
      /\ ((forall page, rs_page source = Some page -> 0 <= page) -> 0 <= us_page u)
      /\ (us_exactText u = ""
          <-> Js.truthyOpt (rs_exactText source) = false
              /\ Js.truthyOpt (rs_content source) = false))
  /\ (forall documentInfo ref,
        let v := adaptBackendSource (basicReference documentInfo ref) in
        us_page v = pageNumber ref
        /\ us_section v = "Page " +:+ Js.numberToString (pageNumber ref)
        /\ us_exactText v = "Content from page " +:+ Js.numberToString (pageNumber ref)
        /\ us_exactText v <> "").
Proof.
  intros Hin. split.
  - unfold adaptBackendResponse in Hin. cbn in Hin. apply in_map_iff in Hin.
    destruct Hin as [source [<- Hin]]. exists source.
    split; [exact Hin|]. split; [reflexivity|]. split; [reflexivity|]. split.
    + intros Hpage. cbn. unfold Js.numberOr.
      destruct (rs_page source) as [page|]; [|lia].
      destruct (page =? 0); [lia | now apply Hpage].
    + cbn. unfold Js.orElse, Js.orDefault, Js.truthyOpt.
      destruct (rs_exactText source) as [[|x e]|];
        destruct (rs_content source) as [[|y c]|]; cbn;
        split; try tauto; try discriminate; intros [? ?]; discriminate.
  - intros documentInfo ref. cbv zeta. cbn. repeat split.
    + unfold Js.numberOr. destruct (pageNumber ref =? 0) eqn:E; [|reflexivity].
      apply Z.eqb_eq in E. now rewrite E.
    + discriminate.
Qed.

Lemma adaptBackendResponse_citations_witness :
  In (adaptBackendSource Example.eligibility)
    (ur_sources
       (adaptBackendResponse 0
          {| any_response := "Adults aged 18 to 75.";
             any_sources := Some [Example.eligibility];
             any_source := Some "primary";
             any_timestamp := Some 1700000000000;
             any_cost := None;
             any_model := None |}))
  /\ 0 <= us_page (adaptBackendSource Example.eligibility).
Proof.
  split; [left; reflexivity|].
  destruct (adaptBackendResponse_citations 0
              {| any_response := "Adults aged 18 to 75.";
                 any_sources := Some [Example.eligibility];
                 any_source := Some "primary";
                 any_timestamp := Some 1700000000000;
                 any_cost := None;
                 any_model := None |}
              (adaptBackendSource Example.eligibility) (or_introl eq_refl))
    as [[source [Hin [_ [_ [Hnonneg _]]]]] _].
  apply Hnonneg. destruct Hin as [<-|[]].
  intros page Hpage. inversion Hpage. lia.
Defined.

(** C8, as stated, fails: a raw source with page [-1] and neither exactText
    nor content is normalized to a citation with a negative page and an empty
    text, under the section label the backend sent. *)
Lemma adaptBackendResponse_negative_page :
  exists u,
    In u (ur_sources
            (adaptBackendResponse 0
               {| any_response := "";
                  any_sources := Some [Example.negativePage];
                  any_source := Some "primary";
                  any_timestamp := Some 1700000000000;
                  any_cost := None;
                  any_model := None |}))
    /\ us_page u < 0
    /\ us_exactText u = ""
    /\ us_section u = "Eligibility".
Proof.
  eexists. split; [left; reflexivity|]. repeat split.
Qed.

(** ** Configuration *)

(** C9, as the code has it.  Without an API key the third-party provider
    cannot be reached: its availability check is false, [getChatPDFService]
    yields no client, the structured error never offers it as a fallback, and
    no [query] makes a call to it or touches its singleton.  The
    forced-primary flag is honoured all the same: when it is set, [query]
    takes the third-party route, which rejects with
    [ChatPDF service is not available] before any call, and the primary
    backend is not tried. *)
Theorem no_api_key_no_third_party_call env net options st :
  Js.truthyOpt (VITE_CHATPDF_ACCESS_KEY env) = false ->
  isAvailable (VITE_CHATPDF_ACCESS_KEY env) = false
  /\ isChatPDFEnabled env = false
  /\ getChatPDFService env st = (Returned None, st)
  /\ (forall error,
        exists b,
          createBackendError env error primary st = (Returned b, st)
          /\ be_suggestFallback b = false)
  /\ (exists out st',
        query env net options st = (out, st')
        /\ thirdPartyCalls (calls st') = thirdPartyCalls (calls st)
        /\ chatPDFService st' = chatPDFService st
        /\ (forall b, out = Threw (BackendErrorObject b) -> be_suggestFallback b = false)
        /\ (forall r, out = Returned r -> br_source r = primary)
        /\ (shouldUseChatPDFAsPrimary env = true ->
              out = Threw (ErrorObject (newError "ChatPDF service is not available"))
              /\ st' = st)).
Proof.
  intros Hkey.
  assert (Hget : forall s, getChatPDFService env s = (Returned None, s))
    by (intros s; now apply getChatPDFService_absent).
  split.
  { unfold isAvailable. unfold Js.truthyOpt in Hkey.
    destruct (VITE_CHATPDF_ACCESS_KEY env); [now rewrite Hkey | reflexivity]. }
  split; [unfold isChatPDFEnabled; rewrite Hkey; apply andb_false_r|].
  split; [apply Hget|].
  split.
  { intros error. eexists. unfold createBackendError. run. rewrite Hget.
    split; reflexivity. }
  unfold query. destruct (shouldUseChatPDFAsPrimary env) eqn:Hflag.
  - unfold queryWithChatPDF. run. rewrite Hget. eexists _, _.
    split; [reflexivity|]. repeat split; intros; discriminate.
  - unfold tryCatch at 1. unfold bind at 1.
    destruct (queryPrimaryBackend env net (qo_message options) (qo_documentId options)
                (qo_userId options) (default 5 (qo_limit options))
                (Js.numberOr (qo_timeout options) requestTimeout) st)
      as [[response|primaryError] st1] eqn:Hprimary;
      destruct (queryPrimaryBackend_effect _ _ _ _ _ _ _ _ _ _ Hprimary)
        as [Hsvc [r Hcalls]];
      assert (Hthird : thirdPartyCalls (calls st1) = thirdPartyCalls (calls st))
        by (rewrite Hcalls, thirdPartyCalls_app; apply app_nil_r).
    + run. eexists _, _. split; [reflexivity|].
      split; [exact Hthird|]. split; [exact Hsvc|].
      split; [discriminate|]. split; [|discriminate].
      intros r0 H. now simplify_eq.
    + unfold createBackendError. run. rewrite Hget. cbn. rewrite Hget. cbn.
      eexists _, _. split; [reflexivity|].
      split; [exact Hthird|]. split; [exact Hsvc|].
      split; [|split; discriminate].
      intros b H. now simplify_eq.
Qed.

Lemma no_api_key_no_third_party_call_witness :
  query Example.envForcedNoKey Example.netUp Example.options Example.initial
  = (Threw (ErrorObject (newError "ChatPDF service is not available")), Example.initial)
  /\ isChatPDFEnabled Example.envForcedNoKey = false.
Proof.
  destruct (no_api_key_no_third_party_call Example.envForcedNoKey Example.netUp
              Example.options Example.initial eq_refl)
    as [_ [Henabled [_ [_ [out [st' [Hq [_ [_ [_ [_ Hforced]]]]]]]]]]].
  destruct (Hforced eq_refl) as [-> ->]. split; [exact Hq | exact Henabled].
Defined.

(** C9, as stated, fails on the forced-primary route.  With the flag set and
    no API key, a query is still routed to the third-party path: [query] is
    [queryWithChatPDF], it rejects, and the primary backend, which would
    have answered, is never called. *)
Lemma forced_primary_without_key_still_routed :
  Js.truthyOpt (VITE_CHATPDF_ACCESS_KEY Example.envForcedNoKey) = false
  /\ shouldUseChatPDFAsPrimary Example.envForcedNoKey = true
  /\ query Example.envForcedNoKey Example.netUp Example.options Example.initial
     = queryWithChatPDF Example.envForcedNoKey Example.netUp
         "inclusion criteria" "doc1" (Some Example.documentData) Example.initial
  /\ query Example.envForcedNoKey Example.netUp Example.options Example.initial
     = (Threw (ErrorObject (newError "ChatPDF service is not available")),
        Example.initial)
  /\ (exists response st1,
        queryPrimaryBackend Example.envForcedNoKey Example.netUp
          "inclusion criteria" "doc1" "tok" 5 120000 Example.initial
        = (Returned response, st1)
        /\ res_response response = "Adults aged 18 to 75.").
Proof.
  split; [reflexivity|]. split; [reflexivity|]. split; [reflexivity|].
  split; [reflexivity|]. eexists _, _. split; reflexivity.
Qed.

(** ** Cost of the LLM citation client *)



(** * Further properties of the code *)

(** ** The sources panel *)

Module PanelFacts.
Import Panel.

Lemma strictEq_spec (a b : option string) : strictEq a b = true <-> a = b.
Proof.
  destruct a as [x|], b as [y|]; simpl; try (split; congruence).
  rewrite String.eqb_eq. split; congruence.
Qed.

Lemma sameKey_spec (s t : Source) : sameKey s t = true <-> key s = key t.
Proof.
  unfold sameKey, key. rewrite andb_true_iff, Z.eqb_eq, strictEq_spec.
  split; [intros [-> ->]; reflexivity | intros H; inversion H; auto].
Qed.

Lemma sameKey_refl (s : Source) : sameKey s s = true.
Proof. now apply sameKey_spec. Qed.

Lemma existsb_sameKey (x : Source) (l : list Source) :
  existsb (fun s => sameKey s x) l = true <-> In (key x) (map key l).
Proof.
  rewrite existsb_exists, in_map_iff. split; intros [s [H1 H2]]; exists s.
  - apply sameKey_spec in H2. auto.
  - split; [assumption | now apply sameKey_spec].
Qed.

Lemma findIndexFrom_bounds {A} (p : A -> bool) (l : list A) (i : Z) :
  existsb p l = true ->
  i <= findIndexFrom p l i < i + Z.of_nat (length l).
Proof.
  revert i. induction l as [|x l IH]; intros i H; [discriminate|].
  cbn [findIndexFrom length]. cbn [existsb] in H. destruct (p x); [lia|].
  specialize (IH (i + 1) H). lia.
Qed.

Lemma findIndexFrom_app {A} (p : A -> bool) (l1 l2 : list A) (i : Z) :
  findIndexFrom p (l1 ++ l2) i
  = if existsb p l1 then findIndexFrom p l1 i
    else findIndexFrom p l2 (i + Z.of_nat (length l1)).
Proof.
  revert i. induction l1 as [|x l1 IH]; intros i.
  - cbn. f_equal. lia.
  - cbn [app findIndexFrom existsb length]. destruct (p x); [reflexivity|].
    cbn [orb]. rewrite IH. destruct (existsb p l1); [reflexivity|]. f_equal. lia.
Qed.

(** The index test of the code keeps exactly the first occurrences. *)
Lemma filterWithIndex_firstOccurrences (seen rest : list Source) :
  filterWithIndex
    (fun source index => index =? findIndex (fun s => sameKey s source) (seen ++ rest))
    rest (Z.of_nat (length seen))
  = firstOccurrences seen rest.
Proof.
  revert seen. induction rest as [|x r IH]; intros seen; [reflexivity|].
  cbn [filterWithIndex firstOccurrences].
  assert (Hnext : Z.of_nat (length seen) + 1 = Z.of_nat (length (seen ++ [x])))
    by (rewrite length_app; cbn; lia).
  assert (Hlist : seen ++ x :: r = (seen ++ [x]) ++ r)
    by (now rewrite <- app_assoc).
  unfold findIndex at 1. rewrite findIndexFrom_app.
  destruct (existsb (fun s => sameKey s x) seen) eqn:Hseen.
  - pose proof (findIndexFrom_bounds _ _ 0 Hseen) as Hb.
    destruct (Z.eqb_spec (Z.of_nat (length seen))
                (findIndexFrom (fun s => sameKey s x) seen 0)) as [E|_]; [lia|].
    rewrite Hnext, Hlist. apply IH.
  - cbn [findIndexFrom]. rewrite sameKey_refl, Z.eqb_refl.
    rewrite Hnext, Hlist. f_equal. apply IH.
Qed.

Lemma uniqueSources_firstOccurrences (sources : list Source) :
  uniqueSources sources = firstOccurrences [] sources.
Proof. exact (filterWithIndex_firstOccurrences [] sources). Qed.

Lemma firstOccurrences_first (seen rest : list Source) (x : Source) :
  In x (firstOccurrences seen rest) ->
  exists pre post,
    rest = pre ++ x :: post
    /\ forall t, In t (seen ++ pre) -> key t <> key x.
Proof.
  revert seen. induction rest as [|y r IH]; intros seen Hin; [contradiction|].
  cbn [firstOccurrences] in Hin.
  destruct (existsb (fun s => sameKey s y) seen) eqn:Hseen.
  - destruct (IH _ Hin) as [pre [post [-> Hpre]]].
    exists (y :: pre), post. split; [reflexivity|].
    intros t Ht. apply Hpre. rewrite <- app_assoc. exact Ht.
  - destruct Hin as [<-|Hin].
    + exists [], r. split; [reflexivity|]. rewrite app_nil_r.
      intros t Ht Hk.
      assert (existsb (fun s => sameKey s y) seen = true); [|congruence].
      apply existsb_sameKey. rewrite <- Hk. now apply in_map.
    + destruct (IH _ Hin) as [pre [post [-> Hpre]]].
      exists (y :: pre), post. split; [reflexivity|].
      intros t Ht. apply Hpre. rewrite <- app_assoc. exact Ht.
Qed.

Lemma firstOccurrences_NoDup (seen rest : list Source) :
  List.NoDup (map key (firstOccurrences seen rest)).
Proof.
  revert seen. induction rest as [|y r IH]; intros seen; [constructor|].
  cbn [firstOccurrences].
  destruct (existsb (fun s => sameKey s y) seen); [apply IH|].
  cbn [map]. constructor; [|apply IH].
  intros Hin. apply in_map_iff in Hin. destruct Hin as [x [Hk Hx]].
  destruct (firstOccurrences_first _ _ _ Hx) as [pre [post [_ Hpre]]].
  apply (Hpre y); [|now symmetry].
  apply in_or_app. left. apply in_or_app. right. now left.
Qed.

Lemma firstOccurrences_sublist (seen rest : list Source) :
  sublist (firstOccurrences seen rest) rest.
Proof.
  revert seen. induction rest as [|y r IH]; intros seen; [constructor|].
  cbn [firstOccurrences].
  destruct (existsb (fun s => sameKey s y) seen);
    [apply sublist_cons | apply sublist_skip]; apply IH.
Qed.

Lemma firstOccurrences_covers (seen rest : list Source) (x : Source) :
  In x rest ->
  In (key x) (map key seen) \/ In (key x) (map key (firstOccurrences seen rest)).
Proof.
  revert seen. induction rest as [|y r IH]; intros seen Hin; [contradiction|].
  cbn [firstOccurrences].
  destruct (existsb (fun s => sameKey s y) seen) eqn:Hseen.
  - destruct Hin as [->|Hin].
    + left. now apply existsb_sameKey.
    + destruct (IH (seen ++ [y]) Hin) as [H|H]; [|now right].
      rewrite map_app in H. apply in_app_or in H. destruct H as [H|[H|[]]].
      * now left.
      * left. rewrite <- H. now apply existsb_sameKey.
  - destruct Hin as [->|Hin]; [right; now left|].
    destruct (IH (seen ++ [y]) Hin) as [H|H]; [|right; now right].
    rewrite map_app in H. apply in_app_or in H. destruct H as [H|[H|[]]].
    + now left.
    + right. left. exact H.
Qed.

Lemma firstOccurrences_distinct (seen rest : list Source) :
  List.NoDup (map key (seen ++ rest)) -> firstOccurrences seen rest = rest.
Proof.
  revert seen. induction rest as [|y r IH]; intros seen Hnd; [reflexivity|].
  cbn [firstOccurrences].
  assert (Hnd' : List.NoDup (map key ((seen ++ [y]) ++ r)))
    by now rewrite <- app_assoc.
  destruct (existsb (fun s => sameKey s y) seen) eqn:Hseen.
  - exfalso. apply existsb_sameKey in Hseen.
    rewrite map_app in Hnd. cbn [map] in Hnd.
    apply NoDup_remove_2 in Hnd. apply Hnd. apply in_or_app. now left.
  - f_equal. now apply IH.
Qed.

End PanelFacts.

(** X1. [uniqueSources] keeps exactly the first source of every (page, text)
    pair: the result has pairwise distinct keys, it is a subsequence of the
    input, every source of the input has its key in the result, and a source
    that is kept is preceded in the input by no source with the same key. *)
Theorem uniqueSources_first_occurrences (sources : list Panel.Source) :
  List.NoDup (map Panel.key (Panel.uniqueSources sources))
  /\ sublist (Panel.uniqueSources sources) sources
  /\ (forall s, In s sources ->
        In (Panel.key s) (map Panel.key (Panel.uniqueSources sources)))
  /\ (forall s, In s (Panel.uniqueSources sources) ->
        exists pre post,
          sources = pre ++ s :: post
          /\ forall t, In t pre -> Panel.key t <> Panel.key s).
Proof.
  rewrite PanelFacts.uniqueSources_firstOccurrences.
  split; [apply PanelFacts.firstOccurrences_NoDup|].
  split; [apply PanelFacts.firstOccurrences_sublist|].
  split.
  - intros s Hs.
    destruct (PanelFacts.firstOccurrences_covers [] sources s Hs) as [[]|H].
    exact H.
  - intros s Hs. exact (PanelFacts.firstOccurrences_first [] sources s Hs).
Qed.

(** X2. Sources whose (page, text) pairs are already pairwise distinct pass
    through [uniqueSources] unchanged; in particular removing duplicates twice
    is the same as removing them once. *)
Theorem uniqueSources_idempotent (sources : list Panel.Source) :
  (List.NoDup (map Panel.key sources) -> Panel.uniqueSources sources = sources)
  /\ Panel.uniqueSources (Panel.uniqueSources sources) = Panel.uniqueSources sources.
Proof.
  assert (H : forall l, List.NoDup (map Panel.key l) -> Panel.uniqueSources l = l).
  { intros l Hl. rewrite PanelFacts.uniqueSources_firstOccurrences.
    now apply PanelFacts.firstOccurrences_distinct. }
  split; [apply H|]. apply H.
  rewrite PanelFacts.uniqueSources_firstOccurrences.
  apply PanelFacts.firstOccurrences_NoDup.
Qed.

Module SortFacts.
Import Panel.










End SortFacts.





Lemma uniqueSources_first_occurrences_witness :
  Panel.uniqueSources Panel.exampleSources
  = [ Panel.exampleSource 7 "Age 18 to 75" (Some "medium");
      Panel.exampleSource 3 "Signed consent" (Some "high");
      Panel.exampleSource 3 "HbA1c 7.0%-10.0%" (Some "high");
      Panel.exampleSource 2 "Stable metformin dose" None ]
  /\ List.NoDup (map Panel.key (Panel.uniqueSources Panel.exampleSources)).
Proof.
  split; [reflexivity|].
  exact (proj1 (uniqueSources_first_occurrences Panel.exampleSources)).
Defined.

Lemma uniqueSources_idempotent_witness :
  Panel.uniqueSources (Panel.uniqueSources Panel.exampleSources)
  = Panel.uniqueSources Panel.exampleSources.
Proof. exact (proj2 (uniqueSources_idempotent Panel.exampleSources)). Defined.

(** ** The PDF reader *)

Module ReaderFacts.
Import Reader.

Lemma clamp_bounds (x : Q) :
  (1 # 2 <= Qmax (1 # 2) (Qmin 3 x))%Q /\ (Qmax (1 # 2) (Qmin 3 x) <= 3)%Q.
Proof.
  split; [apply Q.le_max_l|].
  apply Q.max_lub; [discriminate | apply Q.le_min_l].
Qed.

Lemma InRange_intro (pages : Z) (st : State) :
  numPages st = pages ->
  1 <= pageNumber st <= Z.max 1 pages ->
  (1 # 2 <= scale st)%Q -> (scale st <= 3)%Q ->
  InRange pages st.
Proof. unfold InRange. auto. Qed.

Lemma step_InRange (pages : Z) (st : State) (e : Event) :
  validEvent e -> InRange pages st -> InRange pages (step st e).
Proof.
  intros Hvalid Hst. pose proof Hst as [Hn [Hp [Hlo Hhi]]].
  destruct e as [offset|d|hp|msg]; cbn [step].
  - unfold changePage.
    destruct (1 <=? pageNumber st + offset) eqn:E1;
      destruct (pageNumber st + offset <=? numPages st) eqn:E2; cbn [andb];
      try exact Hst.
    apply Z.leb_le in E1, E2. apply InRange_intro; cbn; try assumption. lia.
  - unfold changeScale. destruct (clamp_bounds (scale st + d)) as [H1 H2].
    apply InRange_intro; cbn; assumption.
  - unfold onHighlightedPage, highlightApplies.
    destruct hp as [p|]; [|exact Hst].
    destruct (p =? 0) eqn:E0; cbn [negb andb]; [exact Hst|].
    destruct (p <=? numPages st) eqn:E1; [|exact Hst].
    apply Z.eqb_neq in E0. apply Z.leb_le in E1. cbn in Hvalid.
    apply InRange_intro; cbn; try assumption. lia.
  - apply InRange_intro; cbn; assumption.
Qed.

Lemma run_InRange (pages : Z) (events : list Event) (st : State) :
  Forall validEvent events -> InRange pages st -> InRange pages (run st events).
Proof.
  revert st. induction events as [|e events IH]; intros st Hv Hst; [exact Hst|].
  inversion Hv; subst. cbn. apply IH; [assumption|]. now apply step_InRange.
Qed.

End ReaderFacts.

(** X5. Once a document of [pages] pages has loaded in a fresh reader, no
    sequence of page changes, zoom changes, highlight requests (for a page
    number that is not negative) and load errors takes the reader off the
    document: the page stays between 1 and the number of pages (1 for an
    empty document) and the zoom between 0.5 and 3. *)
Theorem reader_stays_in_range (pages : Z) (highlightedPage : option Z)
  (events : list Reader.Event) :
  Reader.validEvent (Reader.HighlightedPage highlightedPage) ->
  Forall Reader.validEvent events ->
  Reader.InRange pages
    (Reader.run (Reader.onDocumentLoadSuccess pages highlightedPage Reader.initial)
       events).
Proof.
  intros Hhp Hevents. apply ReaderFacts.run_InRange; [exact Hevents|].
  unfold Reader.onDocumentLoadSuccess, Reader.highlightApplies.
  destruct highlightedPage as [p|];
    [|apply ReaderFacts.InRange_intro; cbn; try reflexivity; try discriminate; lia].
  destruct (p =? 0) eqn:E0; cbn [negb andb];
    [apply ReaderFacts.InRange_intro; cbn; try reflexivity; try discriminate; lia|].
  destruct (p <=? pages) eqn:E1;
    [|apply ReaderFacts.InRange_intro; cbn; try reflexivity; try discriminate; lia].
  apply Z.eqb_neq in E0. apply Z.leb_le in E1. cbn in Hhp.
  apply ReaderFacts.InRange_intro; cbn; try reflexivity; try discriminate; lia.
Qed.

Lemma reader_stays_in_range_witness :
  Reader.pageNumber
    (Reader.run (Reader.onDocumentLoadSuccess 12 (Some 5) Reader.initial)
       [Reader.ChangePage 1; Reader.ChangePage 10; Reader.ChangeScale (2 # 10);
        Reader.HighlightedPage (Some 40); Reader.ChangePage (-1)]) = 5
  /\ Reader.InRange 12
       (Reader.run (Reader.onDocumentLoadSuccess 12 (Some 5) Reader.initial)
          [Reader.ChangePage 1; Reader.ChangePage 10; Reader.ChangeScale (2 # 10);
           Reader.HighlightedPage (Some 40); Reader.ChangePage (-1)]).
Proof.
  split; [reflexivity|].
  apply reader_stays_in_range; [cbn; lia|].
  repeat constructor; cbn; lia.
Defined.

Lemma changePage_accepts (st : Reader.State) (offset : Z) :
  1 <= Reader.pageNumber st + offset <= Reader.numPages st ->
  Reader.changePage offset st
  = Reader.setPageNumber (Reader.pageNumber st + offset) st.
Proof.
  intros [H1 H2]. unfold Reader.changePage.
  apply Z.leb_le in H1, H2. now rewrite H1, H2.
Qed.

Lemma changePage_ignores (st : Reader.State) (offset : Z) :
  ~ 1 <= Reader.pageNumber st + offset <= Reader.numPages st ->
  Reader.changePage offset st = st.
Proof.
  intros H. unfold Reader.changePage.
  destruct (Z.leb_spec 1 (Reader.pageNumber st + offset));
    destruct (Z.leb_spec (Reader.pageNumber st + offset) (Reader.numPages st));
    cbn [andb]; try reflexivity.
  exfalso. apply H. lia.
Qed.

(** X6. On a page of the document, a navigation button that is enabled moves
    by exactly one page, a disabled one would change nothing, and going
    forward then back returns to the same state. *)
Theorem reader_navigation_buttons (st : Reader.State) :
  1 <= Reader.pageNumber st <= Reader.numPages st ->
  (Reader.previousDisabled st = false ->
     Reader.pageNumber (Reader.changePage (-1) st) = Reader.pageNumber st - 1)
  /\ (Reader.nextDisabled st = false ->
        Reader.pageNumber (Reader.changePage 1 st) = Reader.pageNumber st + 1
        /\ Reader.changePage (-1) (Reader.changePage 1 st) = st)
  /\ (Reader.previousDisabled st = true -> Reader.changePage (-1) st = st)
  /\ (Reader.nextDisabled st = true -> Reader.changePage 1 st = st).
Proof.
  intros Hp. unfold Reader.previousDisabled, Reader.nextDisabled.
  split; [|split; [|split]]; intros H.
  - apply Z.leb_gt in H. rewrite (changePage_accepts st (-1)) by lia. cbn. lia.
  - apply Z.leb_gt in H. rewrite (changePage_accepts st 1) by lia.
    split; [reflexivity|].
    rewrite (changePage_accepts _ (-1)) by (cbn; lia).
    destruct st as [n p s l e]. unfold Reader.setPageNumber. cbn. f_equal. lia.
  - apply Z.leb_le in H. apply changePage_ignores. lia.
  - apply Z.leb_le in H. apply changePage_ignores. lia.
Qed.

Lemma reader_navigation_buttons_witness :
  Reader.pageNumber
    (Reader.changePage 1 (Reader.onDocumentLoadSuccess 12 (Some 5) Reader.initial)) = 6.
Proof.
  destruct (reader_navigation_buttons
              (Reader.onDocumentLoadSuccess 12 (Some 5) Reader.initial))
    as [_ [Hnext _]]; [cbn; lia|].
  exact (proj1 (Hnext eq_refl)).
Defined.



(** ** Effects of the services on the cache and on the log *)

Section PreservesRules.

Variable R : State -> State -> Prop.
Hypothesis R_refl : forall st, R st st.
Hypothesis R_trans : forall a b c, R a b -> R b c -> R a c.

Lemma Preserves_ret {A} (a : A) : Preserves R (ret a).
Proof. intros st out st' H. unfold ret in H. simplify_eq. apply R_refl. Qed.

Lemma Preserves_throw {A} (t : Thrown) : Preserves R (@throw A t).
Proof. intros st out st' H. unfold throw in H. simplify_eq. apply R_refl. Qed.

Lemma Preserves_getState : Preserves R getState.
Proof. intros st out st' H. unfold getState in H. simplify_eq. apply R_refl. Qed.

Lemma Preserves_DateNow net : Preserves R (DateNow net).
Proof. intros st out st' H. unfold DateNow in H. simplify_eq. apply R_refl. Qed.

Lemma Preserves_bind {A B} (c : M A) (k : A -> M B) :
  Preserves R c -> (forall a, Preserves R (k a)) -> Preserves R (bind c k).
Proof.
  intros Hc Hk st out st' H. unfold bind in H.
  destruct (c st) as [[a|t] st1] eqn:E.
  - apply R_trans with st1; [exact (Hc _ _ _ E) | exact (Hk _ _ _ _ H)].
  - simplify_eq. exact (Hc _ _ _ E).
Qed.

Lemma Preserves_tryCatch {A} (c : M A) (handler : Thrown -> M A) :
  Preserves R c -> (forall t, Preserves R (handler t)) ->
  Preserves R (tryCatch c handler).
Proof.
  intros Hc Hh st out st' H. unfold tryCatch in H.
  destruct (c st) as [[a|t] st1] eqn:E.
  - simplify_eq. exact (Hc _ _ _ E).
  - apply R_trans with st1; [exact (Hc _ _ _ E) | exact (Hh _ _ _ _ H)].
Qed.

End PreservesRules.

Lemma CacheKept_refl st : CacheKept st st.
Proof. intros id sid H. exact H. Qed.

Lemma CacheKept_trans a b c : CacheKept a b -> CacheKept b c -> CacheKept a c.
Proof. intros H1 H2 id sid H. apply H2, H1, H. Qed.

Lemma CacheSame_refl st : CacheSame st st.
Proof. intros id. reflexivity. Qed.

Lemma CacheSame_trans a b c : CacheSame a b -> CacheSame b c -> CacheSame a c.
Proof. intros H1 H2 id. now rewrite H2, H1. Qed.

Lemma CacheSame_CacheKept a b : CacheSame a b -> CacheKept a b.
Proof. intros H id sid Hc. now rewrite H. Qed.

Lemma OnlyThirdPartyCalls_refl st : OnlyThirdPartyCalls st st.
Proof. exists []. now rewrite app_nil_r. Qed.

Lemma OnlyThirdPartyCalls_trans a b c :
  OnlyThirdPartyCalls a b -> OnlyThirdPartyCalls b c -> OnlyThirdPartyCalls a c.
Proof.
  intros [l1 [H1 F1]] [l2 [H2 F2]]. exists (l1 ++ l2).
  rewrite H2, H1, <- app_assoc, forallb_app, F1, F2. auto.
Qed.

Lemma NoCall_refl st : NoCall st st.
Proof. reflexivity. Qed.

Lemma NoCall_trans a b c : NoCall a b -> NoCall b c -> NoCall a c.
Proof. unfold NoCall. congruence. Qed.

Lemma NoCall_OnlyThirdPartyCalls a b : NoCall a b -> OnlyThirdPartyCalls a b.
Proof. intros H. exists []. now rewrite app_nil_r. Qed.

Lemma Preserves_weaken {A} (R R' : State -> State -> Prop) (c : M A) :
  (forall a b, R a b -> R' a b) -> Preserves R c -> Preserves R' c.
Proof. intros Himp Hc st out st' H. apply Himp. exact (Hc _ _ _ H). Qed.

(** A call does not touch the singleton. *)
Lemma perform_CacheSame {A} (answer : list Call -> A) (c : Call) :
  Preserves CacheSame (perform answer c).
Proof. intros st out st' H. unfold perform in H. simplify_eq. intros id. reflexivity. Qed.

Lemma perform_OnlyThirdPartyCalls {A} (answer : list Call -> A) (c : Call) :
  isThirdPartyCall c = true -> Preserves OnlyThirdPartyCalls (perform answer c).
Proof.
  intros Hc st out st' H. unfold perform in H. simplify_eq.
  exists [c]. cbn. now rewrite Hc.
Qed.

Lemma putService_NoCall svc : Preserves NoCall (putService svc).
Proof. intros st out st' H. unfold putService in H. now simplify_eq. Qed.

(** Solves [Preserves R c]: [leaf] for the computations already dealt with,
    the rules above for the rest. *)
Ltac preserves leaf Rrefl Rtrans :=
  repeat first
    [ leaf
    | apply (Preserves_ret _ Rrefl)
    | apply (Preserves_throw _ Rrefl)
    | apply (Preserves_getState _ Rrefl)
    | apply (Preserves_DateNow _ Rrefl)
    | apply (Preserves_bind _ Rtrans); [|intros ?]
    | apply (Preserves_tryCatch _ Rtrans); [|intros ?]
    | match goal with
      | |- Preserves _ (match ?x with _ => _ end) => destruct x
      | |- Preserves _ (let _ := _ in _) => cbv zeta
      end ].

Lemma getChatPDFService_CacheSame env : Preserves CacheSame (getChatPDFService env).
Proof.
  intros st out st' H. unfold getChatPDFService in H. revert H. run.
  destruct (VITE_CHATPDF_ACCESS_KEY env) as [k|]; [|intros; simplify_eq; apply CacheSame_refl].
  destruct (Js.truthy k); cbn [negb]; [|intros; simplify_eq; apply CacheSame_refl].
  destruct (chatPDFService st) as [svc|] eqn:Hsvc; intros H; simplify_eq.
  - apply CacheSame_refl.
  - intros id. unfold cachedSourceId. rewrite Hsvc. cbn. apply lookup_empty.
Qed.

Lemma getChatPDFService_NoCall env : Preserves NoCall (getChatPDFService env).
Proof.
  unfold getChatPDFService.
  preserves ltac:(apply putService_NoCall) NoCall_refl NoCall_trans.
Qed.

Lemma this_NoCall : Preserves NoCall this.
Proof. unfold this. preserves fail NoCall_refl NoCall_trans. Qed.

Lemma sourceCacheSet_NoCall k v : Preserves NoCall (sourceCacheSet k v).
Proof.
  unfold sourceCacheSet.
  preserves ltac:(first [apply this_NoCall | apply putService_NoCall])
    NoCall_refl NoCall_trans.
Qed.

Lemma createBackendError_NoCall env error source :
  Preserves NoCall (createBackendError env error source).
Proof.
  unfold createBackendError.
  preserves ltac:(apply getChatPDFService_NoCall) NoCall_refl NoCall_trans.
Qed.

(** The computations that leave every cache entry as it is. *)
Ltac cache_same_leaf :=
  first [ apply getChatPDFService_CacheSame | apply perform_CacheSame ].

Ltac cache_same := preserves cache_same_leaf CacheSame_refl CacheSame_trans.

Lemma this_CacheSame : Preserves CacheSame this.
Proof. unfold this. cache_same. Qed.

Lemma uploadDocumentByUrl_CacheSame net url :
  Preserves CacheSame (uploadDocumentByUrl net url).
Proof. unfold uploadDocumentByUrl, this. cache_same. Qed.

Lemma queryDocument_CacheSame net sourceId question options :
  Preserves CacheSame (queryDocument net sourceId question options).
Proof. unfold queryDocument, callExtractSources, this. cache_same. Qed.

Lemma queryPrimaryBackend_CacheSame env net message documentId userId limit timeout :
  Preserves CacheSame (queryPrimaryBackend env net message documentId userId limit timeout).
Proof. unfold queryPrimaryBackend. cache_same. Qed.

Lemma createBackendError_CacheSame env error source :
  Preserves CacheSame (createBackendError env error source).
Proof. unfold createBackendError. cache_same. Qed.

(** [getSourceId] writes the cache only on a miss, at the missing key. *)
Lemma getSourceId_CacheKept net document : Preserves CacheKept (getSourceId net document).
Proof.
  intros st out st' H. destruct (chatPDFService st) as [svc|] eqn:Hsvc.
  - destruct (sourceCache svc !! di_id document) as [sid|] eqn:Hc.
    + rewrite (getSourceId_hit net document st sid) in H
        by (unfold cachedSourceId; now rewrite Hsvc).
      simplify_eq. apply CacheKept_refl.
    + rewrite (getSourceId_miss net document st svc Hsvc Hc) in H.
      destruct (di_url document) as [url|]; [|simplify_eq; apply CacheKept_refl].
      destruct (Js.truthy url); [|simplify_eq; apply CacheKept_refl].
      destruct (uploadDocumentByUrl net url st) as [[sourceId|t] st1] eqn:Hup;
        simplify_eq.
      * intros id sid. unfold cachedSourceId. rewrite Hsvc. cbn. intros Hid.
        rewrite lookup_insert_ne; [exact Hid|]. congruence.
      * apply CacheSame_CacheKept. exact (uploadDocumentByUrl_CacheSame _ _ _ _ _ Hup).
  - intros id sid Hid. unfold cachedSourceId in Hid. rewrite Hsvc in Hid. discriminate.
Qed.

Ltac cache_kept_leaf :=
  first [ apply getSourceId_CacheKept
        | apply (Preserves_weaken _ _ _ CacheSame_CacheKept
                   (getChatPDFService_CacheSame _))
        | apply (Preserves_weaken _ _ _ CacheSame_CacheKept
                   (queryDocument_CacheSame _ _ _ _))
        | apply (Preserves_weaken _ _ _ CacheSame_CacheKept
                   (queryPrimaryBackend_CacheSame _ _ _ _ _ _ _))
        | apply (Preserves_weaken _ _ _ CacheSame_CacheKept
                   (createBackendError_CacheSame _ _ _)) ].

Ltac cache_kept := preserves cache_kept_leaf CacheKept_refl CacheKept_trans.

Lemma queryWithChatPDF_CacheKept env net message documentId documentData :
  Preserves CacheKept (queryWithChatPDF env net message documentId documentData).
Proof. unfold queryWithChatPDF. cache_kept. Qed.

Lemma query_CacheKept env net options : Preserves CacheKept (query env net options).
Proof.
  unfold query.
  preserves ltac:(first [apply queryWithChatPDF_CacheKept | cache_kept_leaf])
    CacheKept_refl CacheKept_trans.
Qed.

(** The computations that only call the third-party provider. *)
Ltac third_party_leaf :=
  first [ apply (Preserves_weaken _ _ _ NoCall_OnlyThirdPartyCalls
                   (getChatPDFService_NoCall _))
        | apply (Preserves_weaken _ _ _ NoCall_OnlyThirdPartyCalls this_NoCall)
        | apply (Preserves_weaken _ _ _ NoCall_OnlyThirdPartyCalls
                   (sourceCacheSet_NoCall _ _))
        | apply perform_OnlyThirdPartyCalls; reflexivity ].

Ltac third_party :=
  preserves third_party_leaf OnlyThirdPartyCalls_refl OnlyThirdPartyCalls_trans.

Lemma queryWithChatPDF_OnlyThirdPartyCalls env net message documentId documentData :
  Preserves OnlyThirdPartyCalls
    (queryWithChatPDF env net message documentId documentData).
Proof.
  unfold queryWithChatPDF, getSourceId, uploadDocumentByUrl, queryDocument,
    callExtractSources.
  third_party.
Qed.

(** ** More on the orchestrator *)

(** X8. Queries never invalidate the source-id cache: whatever [query] does
    (answer from the primary backend, fall back, or reject), every source id
    that was cached before is cached unchanged afterwards. *)
Theorem query_keeps_cached_source_ids env net options st out st' documentId sourceId :
  query env net options st = (out, st') ->
  cachedSourceId st documentId = Some sourceId ->
  cachedSourceId st' documentId = Some sourceId.
Proof. intros Hq. exact (query_CacheKept env net options st out st' Hq _ _). Qed.

(** X9. When the third-party provider is the forced primary, [query] never
    contacts the primary backend: every call it adds to the log is a call to
    the third-party provider. *)
Theorem forced_primary_skips_primary_backend env net options st out st' :
  shouldUseChatPDFAsPrimary env = true ->
  query env net options st = (out, st') ->
  exists l,
    calls st' = calls st ++ l
    /\ forallb isThirdPartyCall l = true.
Proof.
  intros Hflag Hq. unfold query in Hq. rewrite Hflag in Hq.
  exact (queryWithChatPDF_OnlyThirdPartyCalls _ _ _ _ _ _ _ _ Hq).
Qed.

(** What [query] sends to the primary backend. *)
Lemma queryPrimaryBackend_log env net message documentId userId limit timeout
  st out st1 :
  queryPrimaryBackend env net message documentId userId limit timeout st = (out, st1) ->
  calls st1
  = calls st
    ++ [CallPrimaryQuery
          {| pr_url := primaryBackendUrl env +:+ "/query";
             pr_authorization := "Bearer " +:+ userId;
             pr_body :=
               {| pp_message := message +:+ primaryInstruction;
                  pp_user_id := userId;
                  pp_limit := limit;
                  pp_document_ids :=
                    if Js.truthy documentId then Some [documentId] else None |};
             pr_timeout := timeout |}].
Proof.
  unfold queryPrimaryBackend. run. intros H.
  repeat (break_match; simplify_eq/=); reflexivity.
Qed.

Lemma query_handler_OnlyThirdPartyCalls env net message documentId documentData
  primaryError :
  Preserves OnlyThirdPartyCalls
    (let* chatPDFService := getChatPDFService env in
     if (bool_decide (is_Some chatPDFService) && shouldUseFallback primaryError)%bool
     then
       tryCatch
         (queryWithChatPDF env net message documentId documentData)
         (fun fallbackError =>
            throw (BackendErrorObject (createFallbackError primaryError fallbackError)))
     else
       let* backendError := createBackendError env primaryError primary in
       throw (BackendErrorObject backendError)).
Proof.
  preserves
    ltac:(first [ apply queryWithChatPDF_OnlyThirdPartyCalls
                | apply (Preserves_weaken _ _ _ NoCall_OnlyThirdPartyCalls
                           (createBackendError_NoCall _ _ _))
                | third_party_leaf ])
    OnlyThirdPartyCalls_refl OnlyThirdPartyCalls_trans.
Qed.

(** X10. When the third-party provider is not the forced primary, [query]
    asks the primary backend exactly once and before anything else.  The
    request carries the user's message followed by the citation instruction,
    the token as bearer, the document id unless it is empty, a limit of 5
    unless one is given and a timeout of 120000 ms unless a non-zero one is
    given; whatever follows in the log is a call to the third-party
    provider. *)
Theorem query_asks_primary_first env net options st out st' :
  shouldUseChatPDFAsPrimary env = false ->
  query env net options st = (out, st') ->
  exists l,
    calls st'
    = calls st
      ++ CallPrimaryQuery
           {| pr_url := primaryBackendUrl env +:+ "/query";
              pr_authorization := "Bearer " +:+ qo_userId options;
              pr_body :=
                {| pp_message := qo_message options +:+ primaryInstruction;
                   pp_user_id := qo_userId options;
                   pp_limit := default 5 (qo_limit options);
                   pp_document_ids :=
                     if Js.truthy (qo_documentId options)
                     then Some [qo_documentId options] else None |};
              pr_timeout :=
                match qo_timeout options with
                | Some 0 | None => 120000
                | Some timeout => timeout
                end |}
         :: l
    /\ forallb isThirdPartyCall l = true.
Proof.
  intros Hflag Hq. unfold query in Hq. rewrite Hflag in Hq.
  unfold tryCatch at 1 in Hq. unfold bind at 1 in Hq.
  destruct (queryPrimaryBackend env net (qo_message options) (qo_documentId options)
              (qo_userId options) (default 5 (qo_limit options))
              (Js.numberOr (qo_timeout options) requestTimeout) st)
    as [[response|primaryError] st1] eqn:Hprimary.
  - revert Hq. run. intros Hq. simplify_eq. exists [].
    rewrite (queryPrimaryBackend_log _ _ _ _ _ _ _ _ _ _ Hprimary).
    split; [|reflexivity]. repeat f_equal.
    unfold Js.numberOr, requestTimeout. destruct (qo_timeout options) as [[| |]|]; reflexivity.
  - destruct (query_handler_OnlyThirdPartyCalls _ _ _ _ _ _ _ _ _ Hq) as [l [Hl Hf]].
    exists l. rewrite Hl, (queryPrimaryBackend_log _ _ _ _ _ _ _ _ _ _ Hprimary).
    rewrite <- app_assoc. split; [|exact Hf]. repeat f_equal.
    unfold Js.numberOr, requestTimeout. destruct (qo_timeout options) as [[| |]|]; reflexivity.
Qed.

Lemma query_keeps_cached_source_ids_witness :
  exists out st',
    query Example.env Example.netDown Example.options Fixture.warm = (out, st')
    /\ cachedSourceId st' "doc7" = Some "src_7"%string.
Proof.
  eexists _, _. split; [reflexivity|].
  apply (query_keeps_cached_source_ids Example.env Example.netDown Example.options
           Fixture.warm _ _ "doc7"%string "src_7"%string eq_refl).
  reflexivity.
Defined.

Lemma forced_primary_skips_primary_backend_witness :
  exists r st' l,
    query Fixture.envForced Example.netUp Example.options Example.initial
    = (Returned r, st')
    /\ br_source r = chatpdf
    /\ calls st' = l
    /\ forallb isThirdPartyCall l = true.
Proof.
  destruct (forced_primary_skips_primary_backend Fixture.envForced Example.netUp
              Example.options Example.initial _ _ eq_refl eq_refl) as [l [Hl Hf]].
  eexists _, _, l. split; [reflexivity|]. split; [reflexivity|].
  split; [exact Hl | exact Hf].
Defined.

Lemma query_asks_primary_first_witness :
  exists out st' l,
    query Example.env Example.netDown Example.options Example.initial = (out, st')
    /\ calls st'
       = CallPrimaryQuery
           {| pr_url := "https://api.example.org/query";
              pr_authorization := "Bearer tok";
              pr_body :=
                {| pp_message := "inclusion criteria" +:+ primaryInstruction;
                   pp_user_id := "tok";
                   pp_limit := 5;
                   pp_document_ids := Some ["doc1"%string] |};
              pr_timeout := 120000 |} :: l
    /\ forallb isThirdPartyCall l = true.
Proof.
  destruct (query_asks_primary_first Example.env Example.netDown Example.options
              Example.initial _ _ eq_refl eq_refl) as [l [Hl Hf]].
  eexists _, _, l. split; [reflexivity|]. split; [exact Hl | exact Hf].
Defined.

(** How the fallback path runs once the provider is configured and the
    document has a URL. *)
Lemma queryWithChatPDF_run env net message documentId documentData st svc st0 :
  getChatPDFService env st = (Returned (Some svc), st0) ->
  Js.truthyOpt (di_url (documentInfoOf documentId documentData)) = true ->
  queryWithChatPDF env net message documentId documentData st
  = match getSourceId net (documentInfoOf documentId documentData) st0 with
    | (Returned sourceId, st1) =>
        match queryDocument net sourceId message
                (Some (fallbackQueryOptions (documentInfoOf documentId documentData)))
                st1 with
        | (Returned chatPDFResponse, st2) =>
            (Returned
               {| br_response := cq_content chatPDFResponse;
                  br_sources :=
                    Some (transformSources (documentInfoOf documentId documentData)
                            chatPDFResponse);
                  br_source := chatpdf;
                  br_timestamp := dateNow net (calls st2) |}, st2)
        | (Threw t, st2) => (Threw t, st2)
        end
    | (Threw t, st1) => (Threw t, st1)
    end.
Proof.
  intros Hget Hurl. unfold queryWithChatPDF. unfold bind at 1. rewrite Hget.
  fold (documentInfoOf documentId documentData). rewrite Hurl. cbn [negb].
  unfold tryCatch at 1. unfold bind at 1.
  destruct (getSourceId net (documentInfoOf documentId documentData) st0)
    as [[sourceId|t] st1]; [|reflexivity].
  unfold bind at 1. fold (fallbackQueryOptions (documentInfoOf documentId documentData)).
  destruct (queryDocument net sourceId message
              (Some (fallbackQueryOptions (documentInfoOf documentId documentData))) st1)
    as [[chatPDFResponse|t] st2]; reflexivity.
Qed.

(** A chat answer that [queryDocument] returns is the provider's. *)
Lemma queryDocument_returns net sourceId question options st response st' :
  queryDocument net sourceId question options st = (Returned response, st') ->
  exists svc data,
    chatPDFService st = Some svc
    /\ fetchChatMessage net (calls st)
         (chatMessageRequest (apiKey svc) sourceId question options)
       = FetchOk (JsonValue data)
    /\ cq_content response = cb_content data
    /\ cq_references response = Some (default [] (cb_references data)).
Proof.
  unfold queryDocument, callExtractSources, this. run. intros H.
  repeat (break_match; simplify_eq/=); eauto 10.
Qed.

(** X11. When the primary backend fails with a retryable error and the
    configured third-party provider answers, [query] returns that answer:
    it is tagged [chatpdf], its text is the content of the provider's chat
    response to the user's message followed by the formatting contract, and
    the document's source id is cached for later queries. *)
Theorem query_falls_back env net options st primaryError st1 r st2 :
  shouldUseChatPDFAsPrimary env = false ->
  queryPrimaryBackend env net (qo_message options) (qo_documentId options)
    (qo_userId options) (default 5 (qo_limit options))
    (Js.numberOr (qo_timeout options) requestTimeout) st
  = (Threw primaryError, st1) ->
  shouldUseFallback primaryError = true ->
  queryWithChatPDF env net (qo_message options) (qo_documentId options)
    (qo_documentData options) st1
  = (Returned r, st2) ->
  query env net options st = (Returned r, st2)
  /\ br_source r = chatpdf
  /\ (exists history request data,
        fetchChatMessage net history request = FetchOk (JsonValue data)
        /\ cm_content request = qo_message options +:+ chatPDFInstruction
        /\ br_response r = cb_content data)
  /\ is_Some (cachedSourceId st2 (qo_documentId options)).
Proof.
  intros Hflag Hprimary Hretry Hfallback.
  assert (Hkey : Js.truthyOpt (VITE_CHATPDF_ACCESS_KEY env) = true).
  { destruct (Js.truthyOpt (VITE_CHATPDF_ACCESS_KEY env)) eqn:Hk; [reflexivity|].
    unfold queryWithChatPDF in Hfallback. unfold bind at 1 in Hfallback.
    rewrite (getChatPDFService_absent env st1 Hk) in Hfallback. discriminate. }
  destruct (getChatPDFService_present env st1 Hkey) as [svc [st1' [Hget _]]].
  split.
  { unfold query. rewrite Hflag. unfold tryCatch at 1. unfold bind at 1.
    rewrite Hprimary. unfold bind at 1. rewrite Hget.
    rewrite bool_decide_true by eauto. rewrite Hretry. cbn [andb].
    unfold tryCatch.
    now rewrite (queryWithChatPDF_after_get _ _ _ _ _ _ _ _ Hget), Hfallback. }
  destruct (Js.truthyOpt (di_url (documentInfoOf (qo_documentId options)
                                    (qo_documentData options)))) eqn:Hurl.
  2:{ unfold queryWithChatPDF in Hfallback. unfold bind at 1 in Hfallback.
      rewrite Hget in Hfallback.
      fold (documentInfoOf (qo_documentId options) (qo_documentData options))
        in Hfallback.
      rewrite Hurl in Hfallback. discriminate. }
  rewrite (queryWithChatPDF_run _ _ _ _ _ _ _ _ Hget Hurl) in Hfallback.
  destruct (getSourceId net (documentInfoOf (qo_documentId options)
                               (qo_documentData options)) st1')
    as [[sourceId|t] sA] eqn:Hsid; [|discriminate].
  destruct (queryDocument net sourceId (qo_message options)
              (Some (fallbackQueryOptions
                       (documentInfoOf (qo_documentId options)
                          (qo_documentData options)))) sA)
    as [[chatPDFResponse|t] sB] eqn:Hdoc; [|discriminate].
  simplify_eq. split; [reflexivity|]. split.
  - destruct (queryDocument_returns _ _ _ _ _ _ _ Hdoc) as [svc' [data [_ [Hf [Hc _]]]]].
    eexists _, _, data. split; [exact Hf|]. split; [reflexivity | exact Hc].
  - assert (Hcached : is_Some (cachedSourceId sA (qo_documentId options))).
    { destruct (cachedSourceId st1' (qo_documentId options)) as [sid|] eqn:Hc.
      - exists sid. exact (getSourceId_CacheKept _ _ _ _ _ Hsid _ _ Hc).
      - destruct (chatPDFService st1') as [svc1|] eqn:Hsvc1.
        + unfold cachedSourceId in Hc. rewrite Hsvc1 in Hc. cbn in Hc.
          rewrite (getSourceId_miss net
                     (documentInfoOf (qo_documentId options) (qo_documentData options))
                     st1' svc1 Hsvc1 Hc) in Hsid.
          repeat (break_match; simplify_eq/=).
          eexists. unfold cachedSourceId. cbn. apply lookup_insert_eq.
        + unfold getSourceId, this in Hsid. revert Hsid. run.
          rewrite Hsvc1. discriminate. }
    destruct Hcached as [sid Hsid'].
    exists sid. now rewrite (queryDocument_CacheSame _ _ _ _ _ _ _ Hdoc).
Qed.

Lemma query_falls_back_witness :
  exists r st2,
    query Example.env Fixture.netPrimaryTimeout Example.options Example.initial
    = (Returned r, st2)
    /\ br_source r = chatpdf
    /\ br_response r = "See page 5."
    /\ cachedSourceId st2 "doc1" = Some "src_1"%string.
Proof.
  destruct (query_falls_back Example.env Fixture.netPrimaryTimeout Example.options
              Example.initial _ _ _ _ eq_refl eq_refl eq_refl eq_refl)
    as [Hq [Htag _]].
  eexists _, _. split; [exact Hq|]. split; [exact Htag|]. split; reflexivity.
Defined.

(** X12. A primary failure that is not retryable (a 4xx answer, say) never
    reaches the third-party provider: [query] rejects with a structured
    error that carries the primary error's message, is tagged [primary],
    has [canRetry = false], and offers the fallback exactly when the
    provider is configured; no call is made after the primary one and the
    cache is as before. *)
Theorem query_rejects_without_fallback env net options st primaryError st1 :
  shouldUseChatPDFAsPrimary env = false ->
  queryPrimaryBackend env net (qo_message options) (qo_documentId options)
    (qo_userId options) (default 5 (qo_limit options))
    (Js.numberOr (qo_timeout options) requestTimeout) st
  = (Threw primaryError, st1) ->
  shouldUseFallback primaryError = false ->
  exists e st2,
    primaryError = ErrorObject e
    /\ query env net options st
       = (Threw (BackendErrorObject
                   {| be_error := err_message e;
                      be_source := primary;
                      be_canRetry := false;
                      be_suggestFallback :=
                        Js.truthyOpt (VITE_CHATPDF_ACCESS_KEY env) |}), st2)
    /\ calls st2 = calls st1
    /\ (forall documentId,
          cachedSourceId st2 documentId = cachedSourceId st documentId).
Proof.
  intros Hflag Hprimary Hretry.
  destruct (queryPrimaryBackend_throws_Error _ _ _ _ _ _ _ _ _ _ Hprimary) as [e ->].
  exists e.
  assert (Hsame1 := queryPrimaryBackend_CacheSame _ _ _ _ _ _ _ _ _ _ Hprimary).
  unfold query. rewrite Hflag. unfold tryCatch at 1. unfold bind at 1.
  rewrite Hprimary. unfold bind at 1.
  destruct (Js.truthyOpt (VITE_CHATPDF_ACCESS_KEY env)) eqn:Hkey.
  - destruct (getChatPDFService_present env st1 Hkey)
      as [svc [st1' [Hget [_ [Hcalls Hget']]]]].
    assert (Hsame2 := getChatPDFService_CacheSame _ _ _ _ Hget).
    rewrite Hget, Hretry, andb_false_r.
    unfold createBackendError. run. rewrite Hget'. cbn [instanceofError thrownMessage].
    rewrite bool_decide_true by eauto. rewrite Hretry.
    eexists. split; [reflexivity|]. split; [reflexivity|]. split; [exact Hcalls|].
    intros id. now rewrite Hsame2, Hsame1.
  - rewrite (getChatPDFService_absent env st1 Hkey). cbn [andb].
    rewrite bool_decide_false by (intros [? ?]; discriminate). cbn [andb].
    unfold createBackendError. run. rewrite (getChatPDFService_absent env st1 Hkey).
    cbn [instanceofError thrownMessage].
    rewrite bool_decide_false by (intros [? ?]; discriminate). rewrite Hretry.
    eexists. split; [reflexivity|]. split; [reflexivity|]. split; [reflexivity|].
    intros id. now rewrite Hsame1.
Qed.

Lemma query_rejects_without_fallback_witness :
  exists st2,
    query Example.env Fixture.netBadRequest Example.options Example.initial
    = (Threw (BackendErrorObject
                {| be_error := "Primary backend error: 400 Bad Request";
                   be_source := primary;
                   be_canRetry := false;
                   be_suggestFallback := true |}), st2)
    /\ thirdPartyCalls (calls st2) = [].
Proof.
  destruct (query_rejects_without_fallback Example.env Fixture.netBadRequest
              Example.options Example.initial _ _ eq_refl eq_refl eq_refl)
    as [e [st2 [He [Hq [Hcalls _]]]]].
  exists st2. inversion He; subst e. split; [exact Hq|].
  rewrite Hcalls. reflexivity.
Defined.

(** *** Documents without a URL *)

(** The fallback path refuses a document that has neither a [document_url]
    nor a [file_url] before it asks the provider for anything. *)
Lemma queryWithChatPDF_without_url env net message documentId documentData st :
  Js.truthyOpt (VITE_CHATPDF_ACCESS_KEY env) = true ->
  Js.truthyOpt (documentData ≫= document_url) = false ->
  Js.truthyOpt (documentData ≫= file_url) = false ->
  exists st',
    queryWithChatPDF env net message documentId documentData st
    = (Threw (ErrorObject (newError "Document URL is required for ChatPDF processing")),
       st')
    /\ calls st' = calls st
    /\ CacheSame st st'.
Proof.
  intros Hkey Hdoc Hfile.
  destruct (getChatPDFService_present env st Hkey) as [svc [st' [Hget [_ [Hcalls _]]]]].
  exists st'. split; [|split; [exact Hcalls|]].
  - unfold queryWithChatPDF. unfold bind at 1. rewrite Hget.
    unfold Js.orElse. rewrite Hdoc. cbn [di_url]. rewrite Hfile. reflexivity.
  - exact (getChatPDFService_CacheSame _ _ _ _ Hget).
Qed.

(** X13. A document that has neither a [document_url] nor a [file_url]
    cannot be served by the fallback: when the primary backend fails with a
    retryable error and the provider is configured, [query] rejects with the
    ``both services failed'' error whose fallback part is 'Document URL is
    required for ChatPDF processing', and nothing is sent to the third-party
    provider. *)
Theorem query_without_document_url env net options st e st1 :
  shouldUseChatPDFAsPrimary env = false ->
  Js.truthyOpt (VITE_CHATPDF_ACCESS_KEY env) = true ->
  queryPrimaryBackend env net (qo_message options) (qo_documentId options)
    (qo_userId options) (default 5 (qo_limit options))
    (Js.numberOr (qo_timeout options) requestTimeout) st
  = (Threw (ErrorObject e), st1) ->
  shouldUseFallback (ErrorObject e) = true ->
  Js.truthyOpt (qo_documentData options ≫= document_url) = false ->
  Js.truthyOpt (qo_documentData options ≫= file_url) = false ->
  exists st2,
    query env net options st
    = (Threw (BackendErrorObject
                (createFallbackError (ErrorObject e)
                   (ErrorObject
                      (newError "Document URL is required for ChatPDF processing")))),
       st2)
    /\ thirdPartyCalls (calls st2) = thirdPartyCalls (calls st)
    /\ CacheSame st st2.
Proof.
  intros Hflag Hkey Hprimary Hretry Hdoc Hfile.
  destruct (getChatPDFService_present env st1 Hkey) as [svc [st1' [Hget _]]].
  destruct (queryWithChatPDF_without_url env net (qo_message options)
              (qo_documentId options) (qo_documentData options) st1 Hkey Hdoc Hfile)
    as [st2 [Hq [Hcalls Hcache]]].
  exists st2. split; [|split].
  - unfold query. rewrite Hflag. unfold tryCatch at 1. unfold bind at 1.
    rewrite Hprimary. unfold bind at 1. rewrite Hget.
    rewrite bool_decide_true by eauto. rewrite Hretry. cbn [andb].
    unfold tryCatch.
    now rewrite (queryWithChatPDF_after_get _ _ _ _ _ _ _ _ Hget), Hq.
  - rewrite Hcalls.
    destruct (queryPrimaryBackend_effect _ _ _ _ _ _ _ _ _ _ Hprimary) as [_ [r ->]].
    rewrite thirdPartyCalls_app. cbn. apply app_nil_r.
  - intros id. rewrite Hcache.
    apply (queryPrimaryBackend_CacheSame _ _ _ _ _ _ _ _ _ _ Hprimary).
Qed.

Lemma query_without_document_url_witness :
  exists st2,
    query Example.env Fixture.netPrimaryTimeout Fixture.optionsNoUrl Example.initial
    = (Threw (BackendErrorObject
                {| be_error :=
                     "Both services failed. Primary: The operation was aborted.. Fallback: Document URL is required for ChatPDF processing";
                   be_source := primary;
                   be_canRetry := false;
                   be_suggestFallback := false |}), st2)
    /\ thirdPartyCalls (calls st2) = [].
Proof.
  destruct (query_without_document_url Example.env Fixture.netPrimaryTimeout
              Fixture.optionsNoUrl Example.initial _ _
              eq_refl eq_refl eq_refl eq_refl eq_refl eq_refl)
    as [st2 [Hq [Hcalls _]]].
  exists st2. split; [exact Hq | exact Hcalls].
Defined.

(** The log of an upload: one call to [sources/add-url] with the
    singleton's key and the URL. *)
Lemma uploadDocumentByUrl_log net url st svc out st1 :
  chatPDFService st = Some svc ->
  uploadDocumentByUrl net url st = (out, st1) ->
  calls st1 = calls st ++ [CallAddUrl {| au_apiKey := apiKey svc; au_url := url |}].
Proof.
  unfold uploadDocumentByUrl, this. run. intros Hsvc. rewrite Hsvc. intros H.
  repeat (break_match; simplify_eq/=); reflexivity.
Qed.

(** On a cache miss for a document with a URL, [getSourceId] starts with the
    upload of that URL and makes no other call. *)
Lemma getSourceId_miss_log net document st svc url out st1 :
  chatPDFService st = Some svc ->
  sourceCache svc !! di_id document = None ->
  di_url document = Some url ->
  Js.truthy url = true ->
  getSourceId net document st = (out, st1) ->
  calls st1 = calls st ++ [CallAddUrl {| au_apiKey := apiKey svc; au_url := url |}].
Proof.
  intros Hsvc Hmiss Hurl Htruthy H.
  rewrite (getSourceId_miss net document st svc Hsvc Hmiss), Hurl, Htruthy in H.
  destruct (uploadDocumentByUrl net url st) as [[sourceId|t] st'] eqn:Hup;
    simplify_eq; cbn [calls]; exact (uploadDocumentByUrl_log _ _ _ _ _ _ Hsvc Hup).
Qed.

Lemma queryDocument_OnlyThirdPartyCalls net sourceId question options :
  Preserves OnlyThirdPartyCalls (queryDocument net sourceId question options).
Proof. unfold queryDocument, callExtractSources. third_party. Qed.

(** X14. Which URL the fallback uploads.  For a document that is not in the
    cache, the first thing [queryWithChatPDF] sends to the provider is an
    upload by URL, and the URL is the document's [document_url] when it has
    one, its [file_url] otherwise. *)
Theorem fallback_uploads_document_url env net message documentId documentData st
  out st' :
  Js.truthyOpt (VITE_CHATPDF_ACCESS_KEY env) = true ->
  cachedSourceId st documentId = None ->
  queryWithChatPDF env net message documentId documentData st = (out, st') ->
  (forall url,
     documentData ≫= document_url = Some url -> Js.truthy url = true ->
     exists key rest,
       calls st' = calls st ++ CallAddUrl {| au_apiKey := key; au_url := url |} :: rest)
  /\ (forall url,
        Js.truthyOpt (documentData ≫= document_url) = false ->
        documentData ≫= file_url = Some url -> Js.truthy url = true ->
        exists key rest,
          calls st' = calls st ++ CallAddUrl {| au_apiKey := key; au_url := url |} :: rest).
Proof.
  intros Hkey Hmiss Hq.
  destruct (getChatPDFService_present env st Hkey) as [svc [st0 [Hget [Hsvc [Hcalls _]]]]].
  assert (Hmiss0 : sourceCache svc !! documentId = None).
  { rewrite <- Hmiss, <- (getChatPDFService_CacheSame _ _ _ _ Hget documentId).
    unfold cachedSourceId. now rewrite Hsvc. }
  assert (Hmain : forall url,
            di_url (documentInfoOf documentId documentData) = Some url ->
            Js.truthy url = true ->
            exists key rest,
              calls st' = calls st
                            ++ CallAddUrl {| au_apiKey := key; au_url := url |} :: rest).
  { intros url Hurl Htruthy.
    assert (Hturl : Js.truthyOpt (di_url (documentInfoOf documentId documentData)) = true)
      by now rewrite Hurl.
    rewrite (queryWithChatPDF_run _ _ _ _ _ _ _ _ Hget Hturl) in Hq.
    destruct (getSourceId net (documentInfoOf documentId documentData) st0)
      as [oid sA] eqn:Hsid.
    assert (HlogA := getSourceId_miss_log net
                       (documentInfoOf documentId documentData) st0 svc url _ _
                       Hsvc Hmiss0 Hurl Htruthy Hsid).
    exists (apiKey svc). destruct oid as [sourceId|t].
    - destruct (queryDocument net sourceId message
                  (Some (fallbackQueryOptions (documentInfoOf documentId documentData)))
                  sA) as [o2 sB] eqn:Hdoc.
      assert (Hst' : st' = sB) by (destruct o2; now simplify_eq).
      destruct (queryDocument_OnlyThirdPartyCalls _ _ _ _ _ _ _ Hdoc) as [l [Hl _]].
      exists l. rewrite Hst', Hl, HlogA, Hcalls, <- app_assoc. reflexivity.
    - simplify_eq. exists []. now rewrite HlogA, Hcalls. }
  split.
  - intros url Hurl Htruthy. apply Hmain; [|exact Htruthy].
    cbn [documentInfoOf di_url]. unfold Js.orElse. rewrite Hurl. cbn [Js.truthyOpt].
    now rewrite Htruthy.
  - intros url Hdoc Hurl Htruthy. apply Hmain; [|exact Htruthy].
    cbn [documentInfoOf di_url]. unfold Js.orElse. now rewrite Hdoc.
Qed.

Lemma fallback_uploads_document_url_witness :
  exists key rest,
    calls (snd (queryWithChatPDF Example.env Example.netUp "inclusion criteria" "doc1"
                  (Some Example.documentData) Example.initial))
    = CallAddUrl {| au_apiKey := key; au_url := "https://files.example.org/protocol.pdf" |}
        :: rest.
Proof.
  destruct (fallback_uploads_document_url Example.env Example.netUp
              "inclusion criteria" "doc1" (Some Example.documentData) Example.initial
              _ _ eq_refl eq_refl (surjective_pairing _))
    as [Hdoc _].
  exact (Hdoc _ eq_refl eq_refl).
Defined.

(** *** Clearing the cache *)

(** X15. [clearCache] forgets every source id and nothing else: it returns,
    makes no call and keeps the API key; the next [getSourceId] for a
    document with a URL uploads it again, whether or not it was cached
    before. *)
Theorem clearCache_forces_upload net document url st svc :
  chatPDFService st = Some svc ->
  di_url document = Some url ->
  Js.truthy url = true ->
  exists st1,
    clearCache st = (Returned tt, st1)
    /\ calls st1 = calls st
    /\ (chatPDFService st1 ≫= fun s => Some (apiKey s)) = Some (apiKey svc)
    /\ (forall documentId, cachedSourceId st1 documentId = None)
    /\ (forall out st2,
          getSourceId net document st1 = (out, st2) ->
          calls st2
          = calls st ++ [CallAddUrl {| au_apiKey := apiKey svc; au_url := url |}]).
Proof.
  intros Hsvc Hurl Htruthy. eexists. split; [|split; [|split; [|split]]].
  - unfold clearCache, this. run. rewrite Hsvc. reflexivity.
  - reflexivity.
  - reflexivity.
  - intros documentId. unfold cachedSourceId. cbn. apply lookup_empty.
  - intros out st2 H.
    exact (getSourceId_miss_log net document
             {| chatPDFService := Some {| apiKey := apiKey svc; sourceCache := ∅ |};
                calls := calls st |}
             {| apiKey := apiKey svc; sourceCache := ∅ |} url out st2 eq_refl
             (lookup_empty _) Hurl Htruthy H).
Qed.

Lemma clearCache_forces_upload_witness :
  exists st1,
    clearCache Fixture.warm = (Returned tt, st1)
    /\ cachedSourceId Fixture.warm "doc7" = Some "src_7"%string
    /\ cachedSourceId st1 "doc7" = None
    /\ uploadCount
         (calls (snd (getSourceId Example.netUp
                        {| di_id := "doc7"; di_name := "Protocol";
                           di_url := Some "https://files.example.org/protocol.pdf";
                           di_file_size := None; di_mime_type := None |} st1)))
       = 1%nat.
Proof.
  destruct (clearCache_forces_upload Example.netUp
              {| di_id := "doc7"; di_name := "Protocol";
                 di_url := Some "https://files.example.org/protocol.pdf";
                 di_file_size := None; di_mime_type := None |}
              "https://files.example.org/protocol.pdf" Fixture.warm _
              eq_refl eq_refl eq_refl)
    as [st1 [Hclear [_ [_ [Hnone Hlog]]]]].
  exists st1. split; [exact Hclear|]. split; [reflexivity|]. split; [apply Hnone|].
  rewrite (Hlog _ _ (surjective_pairing _)). reflexivity.
Defined.

(** *** Connectivity tests *)

(** X16. [testConnection] never throws and never touches the singleton: it
    sends one probe upload, for [https://www.example.com/test.pdf] with the
    singleton's key, and answers [false] exactly when the request is
    rejected by the transport or answered with status 401. *)
Theorem testConnection_probe net st svc :
  chatPDFService st = Some svc ->
  let request := {| au_apiKey := apiKey svc;
                    au_url := "https://www.example.com/test.pdf" |} in
  exists ok st',
    testConnection net st = (Returned ok, st')
    /\ chatPDFService st' = chatPDFService st
    /\ calls st' = calls st ++ [CallAddUrl request]
    /\ (ok = false
        <-> (exists e, fetchAddUrl net (calls st) request = FetchRejected e)
            \/ (exists statusText body,
                  fetchAddUrl net (calls st) request = FetchNotOk 401 statusText body)).
Proof.
  intros Hsvc request. unfold testConnection, this. run. rewrite Hsvc. fold request.
  destruct (fetchAddUrl net (calls st) request) as [e|body|status statusText body]
    eqn:Hfetch.
  - eexists _, _. split; [reflexivity|]. split; [cbn; congruence|]. split; [reflexivity|].
    split; [eauto|reflexivity].
  - eexists _, _. split; [reflexivity|]. split; [cbn; congruence|]. split; [reflexivity|].
    split; [discriminate|]. intros [[e He]|[s [b Hb]]]; discriminate.
  - eexists _, _. split; [reflexivity|]. split; [cbn; congruence|]. split; [reflexivity|].
    split.
    + intros Hok. apply negb_false_iff, Z.eqb_eq in Hok. subst status. eauto.
    + intros [[e He]|[s [b Hb]]]; [discriminate|]. now simplify_eq.
Qed.

Lemma testConnection_probe_witness :
  exists st',
    testConnection Fixture.netUnauthorized Fixture.warm = (Returned false, st')
    /\ cachedSourceId st' "doc7" = Some "src_7"%string
    /\ uploadCount (calls st') = 1%nat.
Proof.
  destruct (testConnection_probe Fixture.netUnauthorized Fixture.warm _ eq_refl)
    as [ok [st' [Hrun [Hsvc [Hcalls Hok]]]]].
  exists st'. split; [|split].
  - rewrite Hrun. f_equal. f_equal. apply Hok. right. eexists _, _. reflexivity.
  - unfold cachedSourceId. rewrite Hsvc. reflexivity.
  - rewrite Hcalls. reflexivity.
Defined.

(** [testConnection] returns, leaves the singleton as it is and logs one
    probe. *)
Lemma testConnection_returns net st svc :
  chatPDFService st = Some svc ->
  exists ok st',
    testConnection net st = (Returned ok, st')
    /\ chatPDFService st' = chatPDFService st
    /\ calls st'
       = calls st ++ [CallAddUrl {| au_apiKey := apiKey svc;
                                    au_url := "https://www.example.com/test.pdf" |}].
Proof.
  intros Hsvc. unfold testConnection, this. run. rewrite Hsvc.
  destruct (fetchAddUrl net (calls st) _); eauto.
Qed.

(** X17. [testConnectivity] always returns a report.  The primary backend is
    reported available exactly when the health probe is answered with an ok
    status, and an unavailable primary always comes with an error text.
    Without an API key the third-party provider is reported as 'Service not
    configured' and is not contacted; with a key its entry is the result of
    [testConnection], without an error text even when that result is
    [false].  The cache is never changed. *)
Theorem testConnectivity_report env net fetchHealth st :
  exists report st',
    testConnectivity env net fetchHealth st = (Returned report, st')
    /\ (available (conn_primary report) = true
        <-> exists body,
              fetchHealth (calls st) (primaryBackendUrl env +:+ "/health")
              = FetchOk body)
    /\ (available (conn_primary report) = false ->
        is_Some (av_error (conn_primary report)))
    /\ (Js.truthyOpt (VITE_CHATPDF_ACCESS_KEY env) = false ->
        conn_chatpdf report
        = {| available := false; av_error := Some "Service not configured" |}
        /\ calls st' = calls st)
    /\ (Js.truthyOpt (VITE_CHATPDF_ACCESS_KEY env) = true ->
        exists st0 st1,
          getChatPDFService env st = (Returned (chatPDFService st0), st0)
          /\ testConnection net st0
             = (Returned (available (conn_chatpdf report)), st1)
          /\ av_error (conn_chatpdf report) = None
          /\ uploadCount (calls st') = S (uploadCount (calls st)))
    /\ CacheSame st st'.
Proof.
  unfold testConnectivity.
  set (probe := fetchHealth (calls st) (primaryBackendUrl env +:+ "/health")).
  set (primaryResult :=
         match probe with
         | FetchRejected e =>
             {| available := false;
                av_error := Some (connectionError (ErrorObject e)) |}
         | FetchOk _ => {| available := true; av_error := None |}
         | FetchNotOk status _ _ =>
             {| available := false;
                av_error := Some ("HTTP " +:+ Js.numberToString status) |}
         end).
  assert (Hfirst :
            tryCatch
              (let* st := getState in
               match fetchHealth (calls st) (primaryBackendUrl env +:+ "/health") with
               | FetchRejected e => throw (ErrorObject e)
               | FetchOk _ => ret {| available := true; av_error := None |}
               | FetchNotOk status _ _ =>
                   ret {| available := false;
                          av_error := Some ("HTTP " +:+ Js.numberToString status) |}
               end)
              (fun error =>
                 ret {| available := false;
                        av_error := Some (connectionError error) |}) st
            = (Returned primaryResult, st)).
  { run. fold probe. unfold primaryResult. now destruct probe. }
  assert (Hprimary : (available primaryResult = true <-> exists body, probe = FetchOk body)
                     /\ (available primaryResult = false ->
                         is_Some (av_error primaryResult))).
  { unfold primaryResult. destruct probe as [e|body|status statusText body]; cbn.
    - split; [split; [discriminate | intros [? ?]; discriminate] | eauto].
    - split; [split; [eauto | reflexivity] | discriminate].
    - split; [split; [discriminate | intros [? ?]; discriminate] | eauto]. }
  destruct Hprimary as [Havail Herror].
  unfold bind at 1. rewrite Hfirst.
  destruct (Js.truthyOpt (VITE_CHATPDF_ACCESS_KEY env)) eqn:Hkey.
  - destruct (getChatPDFService_present env st Hkey)
      as [svc [st0 [Hget [Hsvc [Hcalls _]]]]].
    destruct (testConnection_returns net st0 svc Hsvc) as [ok [st1 [Htest [Hsvc1 Hlog]]]].
    exists {| conn_primary := primaryResult;
              conn_chatpdf := {| available := ok; av_error := None |} |}, st1.
    split; [|split; [exact Havail|split; [exact Herror|split; [|split]]]].
    + unfold bind at 1. unfold tryCatch at 1. unfold bind at 1. rewrite Hget.
      unfold bind at 1. rewrite Htest. reflexivity.
    + discriminate.
    + intros _. exists st0, st1. cbn [conn_chatpdf available av_error].
      split; [now rewrite Hsvc|]. split; [exact Htest|]. split; [reflexivity|].
      rewrite Hlog, Hcalls. unfold uploadCount. rewrite List.filter_app, length_app.
      cbn. lia.
    + intros id. unfold cachedSourceId at 1. rewrite Hsvc1.
      fold (cachedSourceId st0 id).
      apply (getChatPDFService_CacheSame _ _ _ _ Hget).
  - exists {| conn_primary := primaryResult;
              conn_chatpdf :=
                {| available := false; av_error := Some "Service not configured" |} |},
      st.
    split; [|split; [exact Havail|split; [exact Herror|split; [|split]]]].
    + unfold bind at 1. unfold tryCatch at 1. unfold bind at 1.
      rewrite (getChatPDFService_absent env st Hkey). reflexivity.
    + intros _. split; reflexivity.
    + discriminate.
    + apply CacheSame_refl.
Qed.
(** ** The typing effect *)

Module StreamingFacts.

Import Streaming.

Lemma append_nil_r (s : string) : s +:+ "" = s.
Proof. induction s as [|c s IH]; [reflexivity|]. now rewrite append_cons, IH. Qed.

Lemma split_nonempty (s : string) : split s <> [].
Proof.
  induction s as [|c rest IH]; cbn; [discriminate|].
  destruct (Ascii.eqb c " "); [discriminate|].
  destruct (split rest); discriminate.
Qed.

(** A word that goes on is typed with the text before it. *)
Lemma currentTexts_split_cons (c : ascii) (rest acc : string) :
  Ascii.eqb c " " = false ->
  currentTexts (split (String c rest)) acc
  = currentTexts (split rest) (acc +:+ String c "").
Proof.
  intros Hc. cbn [split]. rewrite Hc.
  destruct (split rest) as [|word words] eqn:Hsplit.
  - now destruct (split_nonempty rest).
  - cbn [currentTexts]. rewrite !append_assoc, !append_cons, !append_nil_l.
    reflexivity.
Qed.

Lemma currentTexts_split_space (rest acc : string) :
  currentTexts (split (String " " rest)) acc
  = (acc +:+ " ") :: currentTexts (split rest) (acc +:+ " ").
Proof. cbn [split]. cbn. reflexivity. Qed.

(** Every value of [currentText] is a prefix of the text followed by a
    space, and the last one is all of it. *)
Lemma currentTexts_prefixes (s : string) :
  forall acc,
    Forall (fun t => exists rest, acc +:+ (s +:+ " ") = t +:+ rest)
      (currentTexts (split s) acc)
    /\ last (currentTexts (split s) acc) = Some (acc +:+ (s +:+ " ")).
Proof.
  induction s as [|c s IH]; intros acc.
  - cbn. split; [|reflexivity]. constructor; [|constructor].
    exists ""%string. now rewrite append_nil_r.
  - destruct (Ascii.eqb c " ") eqn:Hc.
    + apply Ascii.eqb_eq in Hc. subst c. rewrite currentTexts_split_space.
      destruct (IH (acc +:+ " ")) as [Hall Hlast].
      assert (Heq : (acc +:+ " ") +:+ (s +:+ " ") = acc +:+ (String " " s +:+ " "))
        by now rewrite append_assoc.
      rewrite Heq in Hall, Hlast. split.
      * constructor; [|exact Hall]. exists (s +:+ " "). symmetry. exact Heq.
      * destruct (currentTexts (split s) (acc +:+ " ")) as [|t ts] eqn:Hts.
        -- cbn in Hlast. discriminate.
        -- exact Hlast.
    + rewrite (currentTexts_split_cons c s acc Hc).
      destruct (IH (acc +:+ String c "")) as [Hall Hlast].
      assert (Heq : (acc +:+ String c "") +:+ (s +:+ " ")
                    = acc +:+ (String c s +:+ " "))
        by now rewrite append_assoc.
      rewrite Heq in Hall, Hlast. split; assumption.
Qed.

Lemma currentTexts_length (words : list string) (acc : string) :
  length (currentTexts words acc) = length words.
Proof.
  revert acc. induction words as [|w ws IH]; intros acc; cbn; [reflexivity|].
  now rewrite IH.
Qed.

Lemma currentTexts_truthy (words : list string) (acc t : string) :
  In t (currentTexts words acc) -> Js.truthy t = true.
Proof.
  revert acc. induction words as [|w ws IH]; intros acc; cbn; [tauto|].
  intros [<-|Hin]; [|eauto].
  rewrite <- append_assoc.
  destruct (acc +:+ w); reflexivity.
Qed.

Section ChatFacts.

Context {Sources Templates Actions ToolCalls : Type}.

Lemma streamLoop_currentTexts (messageId : string) (words : list string) (acc : string) :
  streamLoop (Sources := Sources) (Templates := Templates) (Actions := Actions)
    (ToolCalls := ToolCalls) messageId words acc
  = map (setStreamedContent messageId) (currentTexts words acc).
Proof.
  revert acc. induction words as [|w ws IH]; intros acc; cbn; [reflexivity|].
  now rewrite IH.
Qed.

(** A later value of [streamedContent] replaces an earlier one. *)
Lemma setStreamedContent_overwrite (messageId t1 t2 : string)
  (chat : list (ChatMessage Sources Templates Actions ToolCalls)) :
  setStreamedContent messageId t2 (setStreamedContent messageId t1 chat)
  = setStreamedContent messageId t2 chat.
Proof.
  unfold setStreamedContent. rewrite map_map. apply map_ext. intros msg.
  destruct (String.eqb (msg_id msg) messageId) eqn:Hid; cbn; now rewrite Hid.
Qed.

Lemma finishStreaming_overwrite (fullText messageId t : string)
  (mock : option (MockResponse Sources Templates Actions))
  (chat : list (ChatMessage Sources Templates Actions ToolCalls)) :
  finishStreaming fullText messageId mock (setStreamedContent messageId t chat)
  = finishStreaming fullText messageId mock chat.
Proof.
  unfold finishStreaming, setStreamedContent. rewrite map_map. apply map_ext.
  intros msg.
  destruct (String.eqb (msg_id msg) messageId) eqn:Hid; cbn; now rewrite Hid.
Qed.

(** The chat after each update, in closed form. *)
Lemma applyUpdates_stream (fullText messageId : string)
  (mock : option (MockResponse Sources Templates Actions))
  (chat : list (ChatMessage Sources Templates Actions ToolCalls))
  (texts : list string) :
  forall current,
    (forall t, setStreamedContent messageId t current
               = setStreamedContent messageId t chat) ->
    finishStreaming fullText messageId mock current
    = finishStreaming fullText messageId mock chat ->
    applyUpdates (map (setStreamedContent messageId) texts
                    ++ [finishStreaming fullText messageId mock]) current
    = map (fun t => setStreamedContent messageId t chat) texts
        ++ [finishStreaming fullText messageId mock chat].
Proof.
  induction texts as [|t ts IH]; intros current Hset Hfin; cbn.
  - now rewrite Hfin.
  - rewrite Hset. f_equal. apply IH.
    + intros t'. apply setStreamedContent_overwrite.
    + apply finishStreaming_overwrite.
Qed.

Lemma applyUpdates_streamResponse (fullText messageId : string)
  (mock : option (MockResponse Sources Templates Actions))
  (chat : list (ChatMessage Sources Templates Actions ToolCalls)) :
  applyUpdates (streamResponse fullText messageId mock) chat
  = map (fun t => setStreamedContent messageId t chat)
      (currentTexts (split fullText) "")
      ++ [finishStreaming fullText messageId mock chat].
Proof.
  unfold streamResponse. rewrite streamLoop_currentTexts.
  now apply applyUpdates_stream.
Qed.

End ChatFacts.

End StreamingFacts.

(** X18. What [streamResponse] shows.  It updates the chat once per piece of
    the text between spaces and once more at the end.  After every update
    the chat has the same messages in the same order and only the message
    being streamed differs from before; while that message is marked as
    streaming, the text rendered for it is a prefix of the full text followed
    by a space; after the last update the message is no longer streaming and
    the text rendered for it is the full text. *)
Theorem streamResponse_shows_prefixes {Sources Templates Actions ToolCalls : Type}
  (fullText messageId : string)
  (mockResponse : option (Streaming.MockResponse Sources Templates Actions))
  (chat : list (Streaming.ChatMessage Sources Templates Actions ToolCalls)) :
  let states :=
    Streaming.applyUpdates (Streaming.streamResponse fullText messageId mockResponse)
      chat in
  length states = S (length (Streaming.split fullText))
  /\ (forall n shown,
        states !! n = Some shown ->
        length shown = length chat
        /\ forall k msg,
             chat !! k = Some msg ->
             exists msg',
               shown !! k = Some msg'
               /\ Streaming.msg_id msg' = Streaming.msg_id msg
               /\ (Streaming.msg_id msg <> messageId -> msg' = msg)
               /\ (Streaming.msg_id msg = messageId ->
                   Streaming.msg_isStreaming msg = Some true ->
                   exists rest,
                     fullText +:+ " " = Streaming.renderedText msg' +:+ rest))
  /\ (exists final,
        last states = Some final
        /\ forall k msg,
             chat !! k = Some msg ->
             Streaming.msg_id msg = messageId ->
             exists msg',
               final !! k = Some msg'
               /\ Streaming.msg_isStreaming msg' = Some false
               /\ Streaming.renderedText msg' = fullText).
Proof.
  intros states. unfold states. rewrite StreamingFacts.applyUpdates_streamResponse.
  destruct (StreamingFacts.currentTexts_prefixes fullText "") as [Hprefix _].
  rewrite append_nil_l in Hprefix.
  set (texts := Streaming.currentTexts (Streaming.split fullText) "") in *.
  split; [|split].
  - rewrite length_app, length_map. unfold texts.
    rewrite StreamingFacts.currentTexts_length. cbn. lia.
  - intros n shown Hn.
    apply lookup_app_Some in Hn as [Hn|[_ Hn]].
    + rewrite list_lookup_fmap in Hn.
      destruct (texts !! n) as [t|] eqn:Ht; [|discriminate]. cbn in Hn.
      injection Hn as <-.
      assert (Hin : In t texts) by (apply list_elem_of_In; eapply list_elem_of_lookup_2; eauto).
      split; [apply length_map|].
      intros k msg Hk. unfold Streaming.setStreamedContent.
      rewrite list_lookup_fmap, Hk. cbn.
      destruct (String.eqb (Streaming.msg_id msg) messageId) eqn:Hid.
      * eexists. split; [reflexivity|]. split; [reflexivity|]. split.
        -- intros Hne. apply String.eqb_eq in Hid. contradiction.
        -- intros _ Hstreaming. unfold Streaming.renderedText. cbn.
           rewrite Hstreaming. cbn.
           pose proof (StreamingFacts.currentTexts_truthy _ _ _ Hin) as Htruthy.
           rewrite Htruthy.
           rewrite List.Forall_forall in Hprefix. exact (Hprefix t Hin).
      * exists msg. split; [reflexivity|]. split; [reflexivity|]. split; [auto|].
        intros Heq. apply String.eqb_neq in Hid. contradiction.
    + destruct (n - length (map _ texts))%nat; [|discriminate]. cbn in Hn.
      injection Hn as <-.
      split; [apply length_map|].
      intros k msg Hk. unfold Streaming.finishStreaming.
      rewrite list_lookup_fmap, Hk. cbn.
      destruct (String.eqb (Streaming.msg_id msg) messageId) eqn:Hid.
      * eexists. split; [reflexivity|]. split; [reflexivity|]. split.
        -- intros Hne. apply String.eqb_eq in Hid. contradiction.
        -- intros _ _. exists " "%string. reflexivity.
      * exists msg. split; [reflexivity|]. split; [reflexivity|]. split; [auto|].
        intros Heq. apply String.eqb_neq in Hid. contradiction.
  - eexists. split; [apply last_snoc|].
    intros k msg Hk Hid. unfold Streaming.finishStreaming.
    rewrite list_lookup_fmap, Hk. cbn.
    apply String.eqb_eq in Hid. rewrite Hid.
    eexists. split; [reflexivity|]. split; reflexivity.
Qed.

Lemma streamResponse_shows_prefixes_witness :
  let states :=
    Streaming.applyUpdates (Streaming.streamResponse "Visit 2 only" "2-llm" None)
      Streaming.exampleChat in
  length states = 4%nat
  /\ (exists shown msg',
        states !! 1%nat = Some shown
        /\ shown !! 1%nat = Some msg'
        /\ Streaming.renderedText msg' = "Visit 2 "%string)
  /\ (exists final msg',
        last states = Some final
        /\ final !! 1%nat = Some msg'
        /\ Streaming.renderedText msg' = "Visit 2 only"%string).
Proof.
  destruct (streamResponse_shows_prefixes "Visit 2 only" "2-llm" None
              Streaming.exampleChat) as [Hlen [_ [final [Hlast Hfinal]]]].
  split; [exact Hlen|]. split.
  - eexists _, _. split; [reflexivity|]. split; reflexivity.
  - destruct (Hfinal 1%nat _ eq_refl eq_refl) as [msg' [Hk [_ Htext]]].
    exists final, msg'. split; [exact Hlast|]. split; [exact Hk | exact Htext].
Defined.

(** ** The status button *)

Module TrialsFacts.

Import Trials.

Lemma clicks_toggle (id : string) (n : nat) (status : string) :
  status = "active"%string \/ status = "paused"%string ->
  clicks n id status = "active"%string \/ clicks n id status = "paused"%string.
Proof.
  revert status. induction n as [|n IH]; intros status Hs; [exact Hs|].
  destruct Hs as [->| ->]; cbn; apply IH; auto.
Qed.

(** The transitions, status by status. *)
Lemma nextStatus_cases (status next : string) :
  statusTransitions status ≫= nextStatus = Some next ->
  (status = "planning" /\ next = "active")%string
  \/ (status = "active" /\ next = "paused")%string
  \/ (status = "paused" /\ next = "active")%string.
Proof.
  unfold statusTransitions.
  destruct (String.eqb_spec status "planning") as [->|_];
    [cbn; intros H; injection H as <-; auto|].
  destruct (String.eqb_spec status "active") as [->|_];
    [cbn; intros H; injection H as <-; auto|].
  destruct (String.eqb_spec status "paused") as [->|_];
    [cbn; intros H; injection H as <-; auto|].
  destruct (String.eqb_spec status "completed") as [->|_]; [discriminate|].
  destruct (String.eqb_spec status "cancelled") as [->|_]; discriminate.
Qed.

End TrialsFacts.

(** X19. The status button of a trial.  The button is rendered exactly when
    a click on it starts a mutation.  The mutation is for the trial shown
    and changes nothing but the status, to [active] from [planning] or
    [paused] and to [paused] from [active]; the new status differs from the
    old one and has a button of its own, so that any number of clicks only
    ever alternates between [active] and [paused]; [completed] and
    [cancelled] are never set by the button, and their labels are never
    shown. *)
Theorem status_button_cycle (id status : string) :
  (Trials.showsStatusButton status = true <-> is_Some (Trials.archiveTrial id status))
  /\ forall v,
       Trials.archiveTrial id status = Some v ->
       Trials.trialId v = id
       /\ (exists next,
             Trials.updates v = {[ "status"%string := Trials.VString next ]}
             /\ (next = "active" \/ next = "paused")%string
             /\ next <> status
             /\ Trials.showsStatusButton next = true)
       /\ (forall n,
             Trials.clicks (S n) id status = "active"%string
             \/ Trials.clicks (S n) id status = "paused"%string)
       /\ (exists text,
             Trials.buttonText false status = Some text
             /\ In text ["Start Trial"; "Pause Trial"; "Resume Trial"]%string).
Proof.
  split.
  - unfold Trials.showsStatusButton, Trials.archiveTrial, Js.truthyOpt.
    destruct (Trials.statusTransitions status ≫= Trials.nextStatus) as [next|].
    + destruct (Js.truthy next); split; eauto; try discriminate.
      intros [? ?]; discriminate.
    + split; [discriminate | intros [? ?]; discriminate].
  - intros v Hv. unfold Trials.archiveTrial in Hv.
    destruct (Trials.statusTransitions status ≫= Trials.nextStatus) as [next|] eqn:Hnext;
      [|discriminate].
    destruct (TrialsFacts.nextStatus_cases status next Hnext)
      as [[-> ->]|[[-> ->]|[-> ->]]];
      cbn in Hv; injection Hv as <-; cbn [Trials.trialId Trials.updates];
      (split; [reflexivity|]);
      (split; [eexists; split; [reflexivity|];
               split; [auto|]; split; [discriminate | reflexivity]|]);
      (split; [intros n; cbn; apply TrialsFacts.clicks_toggle; auto|]);
      (eexists; split; [reflexivity|]; cbn; auto).
Qed.

Lemma status_button_cycle_witness :
  Trials.showsStatusButton "planning" = true
  /\ Trials.buttonText false "planning" = Some "Start Trial"%string
  /\ Trials.clicks 1 "t2" "planning" = "active"%string
  /\ (Trials.clicks 4 "t2" "planning" = "active"%string
      \/ Trials.clicks 4 "t2" "planning" = "paused"%string)
  /\ Trials.showsStatusButton "completed" = false.
Proof.
  destruct (status_button_cycle "t2" "planning") as [_ Hclick].
  destruct (Hclick _ eq_refl) as [_ [_ [Hcycle _]]].
  split; [reflexivity|]. split; [reflexivity|]. split; [reflexivity|].
  split; [exact (Hcycle 3%nat) | reflexivity].
Defined.

(** X20. The optimistic update of the status and its rollback.  When the
    list of trials is cached, [onMutate] for the mutation a click starts
    keeps the list's length and order, leaves every trial with another id as
    it is, and in a trial with the mutation's id changes only the status, to
    the new one; [onError] with the context of [onMutate] then puts back the
    list exactly as it was before, whatever the cache holds by then.  When
    no list is cached, neither of the two writes anything. *)
Theorem optimistic_status_update (id status : string) (v : Trials.MutationVariables)
  (cache : Trials.ListCache) :
  Trials.archiveTrial id status = Some v ->
  let after := fst (Trials.onMutate v cache) in
  let context := snd (Trials.onMutate v cache) in
  (forall later, Trials.onError (Some context) later
                 = match cache with Some _ => cache | None => later end)
  /\ (cache = None -> after = None)
  /\ forall trials,
       cache = Some trials ->
       exists trials',
         after = Some trials'
         /\ length trials' = length trials
         /\ forall k t,
              trials !! k = Some t ->
              exists t',
                trials' !! k = Some t'
                /\ (forall key, key <> "status"%string -> t' !! key = t !! key)
                /\ (Trials.hasId t id = false -> t' = t)
                /\ (Trials.hasId t id = true ->
                    exists next,
                      Trials.statusTransitions status ≫= Trials.nextStatus = Some next
                      /\ t' !! "status"%string = Some (Trials.VString next)).
Proof.
  intros Hv after context. unfold Trials.archiveTrial in Hv.
  destruct (Trials.statusTransitions status ≫= Trials.nextStatus) as [next|] eqn:Hnext;
    [|discriminate].
  destruct (Js.truthy next); [|discriminate]. injection Hv as <-.
  subst after context. unfold Trials.onMutate, Trials.onError.
  cbn [fst snd Trials.trialId Trials.updates Trials.previousTrials].
  split; [|split].
  - intros later. now destruct cache.
  - intros ->. reflexivity.
  - intros trials ->. cbn. eexists. split; [reflexivity|].
    split; [apply length_map|].
    intros k t Hk. rewrite list_lookup_fmap, Hk. cbn.
    destruct (Trials.hasId t id) eqn:Hid.
    + eexists. split; [reflexivity|]. split; [|split; [discriminate|]].
      * intros key Hkey. unfold Trials.spread.
        apply lookup_union_r. now apply lookup_singleton_ne.
      * intros _. exists next. split; [reflexivity|]. unfold Trials.spread.
        apply lookup_union_Some_l. apply lookup_singleton_eq.
    + exists t. split; [reflexivity|]. split; [reflexivity|].
      split; [reflexivity | discriminate].
Qed.

Lemma optimistic_status_update_witness :
  exists trials',
    fst (Trials.onMutate
           {| Trials.trialId := "t1";
              Trials.updates := {[ "status"%string := Trials.VString "paused" ]} |}
           (Some Trials.exampleTrials))
    = Some trials'
    /\ length trials' = 2%nat
    /\ Trials.onError
         (Some (snd (Trials.onMutate
                       {| Trials.trialId := "t1";
                          Trials.updates :=
                            {[ "status"%string := Trials.VString "paused" ]} |}
                       (Some Trials.exampleTrials))))
         (Some trials')
       = Some Trials.exampleTrials.
Proof.
  destruct (optimistic_status_update "t1" "active" _ (Some Trials.exampleTrials) eq_refl)
    as [Hrollback [_ Hupdate]].
  destruct (Hupdate _ eq_refl) as [trials' [Hafter [Hlen _]]].
  exists trials'. split; [exact Hafter|]. split; [exact Hlen|]. apply Hrollback.
Defined.
